(** * Finance tracker: store, normalizer and report export

    A shallow embedding of [main.py].  The script keeps its transactions in
    the CSV file [finance_data.csv], reloads it through pandas, normalizes
    uploaded CSV files, and exports reports through plotly and reportlab.

    What belongs to the script is embedded statement by statement.  The
    library calls it makes are modelled as follows.
    - A text file is kept in tokenised form: a list of lines, each a list of
      field texts, the last line ending with a line break as in every file
      the script writes.  Quoting and escaping, which [to_csv] and [read_csv]
      undo for each other, are below this level.  Header names are the names
      [read_csv] assigns.
    - [read_csv] keeps field texts as they are, apart from the NA markers;
      the column-wide dtype inference of pandas is not modelled, numbers are
      recognised by [to_numeric].  What is proved about loaded tables is
      about which rows and which nulls they have, and holds whatever type
      pandas gives a column.
    - A label that several columns carry is resolved to the first of them
      where pandas does so, and is an error where pandas raises: in
      [to_datetime], [to_numeric], [groupby] and the test of line 49.
    - The date and number grammars of pandas are parameters of the
      development ([parse_date], [parse_number]); [iso_date] and
      [decimal_literal] are the instances used to run examples.
    - Amounts are finite decimals, which every binary float is.  The sum
      pandas takes of a column and the order in which [groupby] puts its keys
      are parameters as well ([column_sum], [key_before]); [decimal_sum] and
      [key_leb] are the instances used to run examples.
    - Image rendering and PDF layout succeed or fail as an explicit record
      of collaborators says.
    - The page is the list of what the script has put on it; columns,
      page set-up, title and footer have no counterpart. *)

From stdpp Require Import gmap strings list.
From Stdlib Require Import ZArith QArith Ascii DecimalString DecimalN.

Open Scope Z_scope.
Open Scope string_scope.
Open Scope list_scope.
Open Scope nat_scope.

(** ** Values *)

Record date := mk_date { year : nat; month : nat; day : nat }.

(** The decimal [mant * 10 ^ (- scale)]. *)
Record num := mk_num { mant : Z; scale : nat }.

Definition num_nonneg (x : num) : bool := (0 <=? mant x)%Z.

Definition num_add (x y : num) : num :=
  {| mant := (mant x * 10 ^ Z.of_nat (scale y) + mant y * 10 ^ Z.of_nat (scale x))%Z;
     scale := scale x + scale y |}.

Definition num_eqb (x y : num) : bool :=
  (mant x * 10 ^ Z.of_nat (scale y) =? mant y * 10 ^ Z.of_nat (scale x))%Z.

Definition date_eqb (a b : date) : bool :=
  (year a =? year b) && (month a =? month b) && (day a =? day b).

(** A dataframe cell.  [Null] stands for NaN, None and NaT alike. *)
Inductive cell :=
| Null
| Str (s : string)
| Num (x : num)
| Date (d : date).

Definition isnull (c : cell) : bool :=
  match c with Null => true | _ => false end.

Definition cell_eqb (a b : cell) : bool :=
  match a, b with
  | Null, Null => true
  | Str s, Str t => bool_decide (s = t)
  | Num x, Num y => num_eqb x y
  | Date d, Date e => date_eqb d e
  | _, _ => false
  end.

(** ** Exceptions *)

Inductive exn :=
| FileNotFoundError
| EmptyDataError
| ParserError
| UnicodeDecodeError
| KeyError (key : string)
| ValueError (msg : string)
| TypeError (msg : string)
| ExternalError (what : string).

Inductive res (A : Type) :=
| Ok (a : A)
| Raise (e : exn).
Arguments Ok {A} a.
Arguments Raise {A} e.

Definition res_bind {A B} (r : res A) (k : A → res B) : res B :=
  match r with Ok a => k a | Raise e => Raise e end.

(** ** Dataframes *)

Record DataFrame := mk_df { columns : list string; rows : list (list cell) }.

Definition canonical_columns : list string :=
  ["Date"; "Type"; "Category"; "Description"; "Amount"].

(** [pd.DataFrame(columns=[...])] *)
Definition empty_frame (cols : list string) : DataFrame :=
  {| columns := cols; rows := [] |}.

Fixpoint col_index (name : string) (cols : list string) : option nat :=
  match cols with
  | [] => None
  | c :: cs => if decide (c = name) then Some 0 else S <$> col_index name cs
  end.

(** [name in df.columns] *)
Definition has_col (name : string) (df : DataFrame) : bool :=
  bool_decide (name ∈ columns df).

Definition at_col (i : nat) (row : list cell) : cell := default Null (row !! i).

(** [row[name]] on a row of [df]; [Null] when there is no such column. *)
Definition field (df : DataFrame) (name : string) (row : list cell) : cell :=
  match col_index name (columns df) with
  | Some i => at_col i row
  | None => Null
  end.

(** [df[name]] *)
Definition getitem (df : DataFrame) (name : string) : res (list cell) :=
  match col_index name (columns df) with
  | Some i => Ok (map (at_col i) (rows df))
  | None => Raise (KeyError name)
  end.

(** [df[name] = vals]: replaces the column, or adds it as the last one. *)
Definition setitem (df : DataFrame) (name : string) (vals : list cell) : DataFrame :=
  match col_index name (columns df) with
  | Some i =>
      {| columns := columns df;
         rows := zip_with (λ row v, <[i := v]> row) (rows df) vals |}
  | None =>
      {| columns := columns df ++ [name];
         rows := zip_with (λ row v, row ++ [v]) (rows df) vals |}
  end.

(** [df[name] = scalar] *)
Definition setitem_scalar (df : DataFrame) (name : string) (v : cell) : DataFrame :=
  setitem df name (replicate (length (rows df)) v).

(** [df.rename(columns={old: new})] *)
Definition rename (old new : string) (df : DataFrame) : DataFrame :=
  {| columns := map (λ c, if decide (c = old) then new else c) (columns df);
     rows := rows df |}.

(** [df.dropna()]: a row stays when none of its cells is null. *)
Definition dropna (df : DataFrame) : DataFrame :=
  {| columns := columns df;
     rows := filter (λ row, forallb (λ c, negb (isnull c)) row = true) (rows df) |}.

(** [df.dropna(subset=names)]; the names are columns of [df]. *)
Definition dropna_subset (names : list string) (df : DataFrame) : DataFrame :=
  {| columns := columns df;
     rows := filter (λ row, forallb (λ n, negb (isnull (field df n row))) names = true)
               (rows df) |}.

(** [df.empty] *)
Definition df_empty (df : DataFrame) : bool :=
  match columns df, rows df with
  | [], _ | _, [] => true
  | _, _ => false
  end.

(** ** Text files *)

Inductive file :=
| Text (lines : list (list string))
| Binary.

(** The strings [read_csv] reads as NA by default. *)
Definition na_values : list string :=
  [""; "#N/A"; "#N/A N/A"; "#NA"; "-1.#IND"; "-1.#QNAN"; "-NaN"; "-nan";
   "1.#IND"; "1.#QNAN"; "<NA>"; "N/A"; "NA"; "NULL"; "NaN"; "None"; "n/a";
   "nan"; "null"].

Definition read_field (t : string) : cell :=
  if bool_decide (t ∈ na_values) then Null else Str t.

(** A line shorter than the header is filled up with NA. *)
Definition read_row (width : nat) (line : list string) : list cell :=
  map read_field line ++ replicate (width - length line) Null.

(** [pd.read_csv(path)] without [parse_dates].  The first line is the header.
    A line longer than the header is taken as a tokenising error; pandas
    makes an exception for the first data line, whose surplus fields it takes
    as an index, which is not modelled. *)
Definition read_csv (f : option file) : res DataFrame :=
  match f with
  | None => Raise FileNotFoundError
  | Some Binary => Raise UnicodeDecodeError
  | Some (Text []) => Raise EmptyDataError
  | Some (Text (header :: data)) =>
      if forallb (λ line, length line <=? length header) data
      then Ok {| columns := header; rows := map (read_row (length header)) data |}
      else Raise ParserError
  end.

(** *** Rendering cells as text *)

Definition digits (n : N) : string := NilZero.string_of_uint (N.to_uint n).

Definition number (s : string) : option N := N.of_uint <$> NilZero.uint_of_string s.

Fixpoint zeros (n : nat) : string :=
  match n with 0 => EmptyString | S n' => String "0" (zeros n') end.

Definition pad (width : nat) (s : string) : string :=
  zeros (width - String.length s) ++ s.

(** [date.isoformat()] *)
Definition print_date (d : date) : string :=
  pad 4 (digits (N.of_nat (year d))) ++ "-" ++
  pad 2 (digits (N.of_nat (month d))) ++ "-" ++
  pad 2 (digits (N.of_nat (day d))).

(** The text of a float: sign, integer part, point, fractional part. *)
Definition print_num (x : num) : string :=
  let m := Z.abs_N (mant x) in
  let p := (10 ^ N.of_nat (scale x))%N in
  (if (mant x <? 0)%Z then "-" else "") ++
  digits (m / p)%N ++ "." ++
  (if scale x is 0 then "0" else pad (scale x) (digits (m mod p)%N)).

(** How [to_csv] writes a cell; NA is written as the empty field. *)
Definition to_csv_cell (c : cell) : string :=
  match c with
  | Null => ""
  | Str s => s
  | Num x => print_num x
  | Date d => print_date d
  end.

(** [df.to_csv(index=False)], as lines. *)
Definition to_csv (df : DataFrame) : list (list string) :=
  columns df :: map (map to_csv_cell) (rows df).

(** [str(value)] inside an f-string. *)
Definition str_cell (c : cell) : string :=
  match c with
  | Null => "nan"
  | Str s => s
  | Num x => print_num x
  | Date d => print_date d ++ " 00:00:00"
  end.

(** *** Reading text as values *)

Fixpoint split_on_go (sep : ascii) (acc : string) (s : string) : list string :=
  match s with
  | EmptyString => [String.rev acc]
  | String c s' =>
      if Ascii.eqb c sep then String.rev acc :: split_on_go sep EmptyString s'
      else split_on_go sep (String c acc) s'
  end.

Definition split_on (sep : ascii) (s : string) : list string :=
  split_on_go sep EmptyString s.

(** Dates written [YYYY-MM-DD]. *)
Definition iso_date (s : string) : option date :=
  match split_on "-" s with
  | [y; m; d] =>
      if (String.length y =? 4) && (String.length m =? 2) && (String.length d =? 2)
      then
        ny ← number y; nm ← number m; nd ← number d;
        if ((1 <=? nm) && (nm <=? 12) && (1 <=? nd) && (nd <=? 31))%N
        then Some (mk_date (N.to_nat ny) (N.to_nat nm) (N.to_nat nd))
        else None
      else None
  | _ => None
  end.

Definition unsigned_literal (s : string) : option num :=
  match split_on "." s with
  | [i] => n ← number i; Some (mk_num (Z.of_N n) 0)
  | [i; f] =>
      ni ← number i;
      nf ← (if String.length f is 0 then Some 0%N else number f);
      Some (mk_num (Z.of_N (ni * 10 ^ N.of_nat (String.length f) + nf)) (String.length f))
  | _ => None
  end.

(** Decimal literals: an optional sign, digits, an optional fractional part. *)
Definition decimal_literal (s : string) : option num :=
  match s with
  | String "-" s' => (λ x, mk_num (- mant x) (scale x)) <$> unsigned_literal s'
  | String "+" s' => unsigned_literal s'
  | _ => unsigned_literal s
  end.

(** *** A sum and an order to run examples with *)

(** The exact sum of the numbers of a column, anything else skipped. *)
Definition decimal_sum (col : list cell) : cell :=
  Num (foldl (λ acc c, match c with Num x => num_add acc x | _ => acc end)
         (mk_num 0 0) col).

Definition date_leb (a b : date) : bool :=
  if year a =? year b
  then if month a =? month b then day a <=? day b else month a <? month b
  else year a <? year b.

Definition num_leb (x y : num) : bool :=
  (mant x * 10 ^ Z.of_nat (scale y) <=? mant y * 10 ^ Z.of_nat (scale x))%Z.

(** Texts by code point, dates by the calendar, numbers by value. *)
Definition cell_leb (a b : cell) : bool :=
  match a, b with
  | Str s, Str t => String.leb s t
  | Date d, Date e => date_leb d e
  | Num x, Num y => num_leb x y
  | Null, _ => true
  | _, Null => false
  | Num _, _ => true
  | _, Num _ => false
  | Date _, Str _ => true
  | Str _, Date _ => false
  end.

Fixpoint key_leb (a b : list cell) : bool :=
  match a, b with
  | [], _ => true
  | _ :: _, [] => false
  | x :: a', y :: b' => if cell_eqb x y then key_leb a' b' else cell_leb x y
  end.

(** ** Charts, documents and the page *)

Inductive figure :=
| Line (trend : DataFrame)
| Pie (cat_df : DataFrame).

Inductive flowable :=
| Paragraph (text : string)
| Spacer (width height : nat)
| Image (path : string) (width height : nat).

Inductive download :=
| CsvBytes (lines : list (list string))
| XlsxBytes (sheet : DataFrame)
| PdfBytes (story : list flowable).

(** What the script puts on the page, in order. *)
Inductive st_event :=
| st_header (text : string)
| st_subheader (text : string)
| st_warning (text : string)
| st_error (text : string)
| st_success (text : string)
| st_dataframe (df : DataFrame)
| st_plotly_chart (fig : figure) (key : string)
| st_download_button (label : string) (data : download) (file_name mime : string).

(** The libraries that may fail for reasons outside the script: plotly's
    image export, reportlab's paragraph parser and document builder. *)
Record collaborators := {
  write_image_ok : figure → string → bool;
  paragraph_ok : string → bool;
  build_ok : list flowable → bool
}.

(** ** The world of the script: files on disk and the page *)

Record world := mk_world { fs : gmap string file; ui : list st_event }.

Definition M (A : Type) : Type := world → res A * world.

Definition ret {A} (a : A) : M A := λ w, (Ok a, w).

Definition bind {A B} (m : M A) (k : A → M B) : M B :=
  λ w, match m w with
       | (Ok a, w') => k a w'
       | (Raise e, w') => (Raise e, w')
       end.

Definition lift {A} (r : res A) : M A := λ w, (r, w).

(** [try: body except: handler]; what [body] did to the world stays done. *)
Definition try_except {A} (body : M A) (handler : exn → M A) : M A :=
  λ w, match body w with
       | (Ok a, w') => (Ok a, w')
       | (Raise e, w') => handler e w'
       end.

Notation "'let*' x ':=' m 'in' k" := (bind m (λ x, k))
  (at level 10, x name, m at level 100, k at level 200).
Notation "m ;; k" := (bind m (λ _, k))
  (at level 100, k at level 200, right associativity).

Definition emit (e : st_event) : M unit :=
  λ w, (Ok tt, {| fs := fs w; ui := ui w ++ [e] |}).

(** [os.path.exists(path)] *)
Definition path_exists (path : string) : M bool :=
  λ w, (Ok (bool_decide (is_Some (fs w !! path))), w).

Definition open_read (path : string) : M (option file) :=
  λ w, (Ok (fs w !! path), w).

Definition write_file (path : string) (f : file) : M unit :=
  λ w, (Ok tt, {| fs := <[path := f]> (fs w); ui := ui w |}).

(** Opening with [mode='a'] creates the file when it is not there.  A file
    that is not text stays one. *)
Definition append_lines (path : string) (new : list (list string)) : M unit :=
  λ w, match fs w !! path with
       | None => write_file path (Text new) w
       | Some (Text old) => write_file path (Text (old ++ new)) w
       | Some Binary => (Ok tt, w)
       end.

(** [os.remove(path)] *)
Definition os_remove (path : string) : M unit :=
  λ w, match fs w !! path with
       | Some _ => (Ok tt, {| fs := delete path (fs w); ui := ui w |})
       | None => (Raise FileNotFoundError, w)
       end.

Definition data_file : string := "finance_data.csv".

Section Script.

(** The date and number grammars of pandas, and the collaborators. *)
Variable parse_date : string → option date.
Variable parse_number : string → option num.
Variable ext : collaborators.

(** The arithmetic and the order of pandas: [column_sum] is [Series.sum] on
    the values of one group, in the order of the rows, and [key_before] tells
    whether [groupby] puts the first key before the second. *)
Variable column_sum : list cell → cell.
Variable key_before : list cell → list cell → bool.

(** [pd.to_datetime(value, errors='coerce')] on one cell.  [read_csv] hands
    on text and NA only, so a number does not arise here. *)
Definition to_datetime_cell (c : cell) : cell :=
  match c with
  | Str t => match parse_date t with Some d => Date d | None => Null end
  | Date d => Date d
  | Null | Num _ => Null
  end.

(** [pd.to_numeric(value, errors='coerce')] on one cell; a date does not
    arise here. *)
Definition to_numeric_cell (c : cell) : cell :=
  match c with
  | Str t => match parse_number t with Some x => Num x | None => Null end
  | Num x => Num x
  | Null | Date _ => Null
  end.

Definition to_datetime (col : list cell) : list cell := map to_datetime_cell col.
Definition to_numeric (col : list cell) : list cell := map to_numeric_cell col.

Definition parses_as_date (c : cell) : bool :=
  match c with
  | Str t => bool_decide (is_Some (parse_date t))
  | _ => true
  end.

(** [parse_dates=[name]] of [read_csv]: the column becomes a date column
    when every value in it is a date, and stays text otherwise. *)
Definition parse_dates (name : string) (df : DataFrame) : res DataFrame :=
  match getitem df name with
  | Raise _ => Raise (ValueError "Missing column provided to 'parse_dates'")
  | Ok col =>
      if forallb parses_as_date col
      then Ok (setitem df name (to_datetime col))
      else Ok df
  end.

(** ** The store *)

(** Lines 18-19: the data file is created when the script starts. *)
Definition initialize : M unit :=
  let* there := path_exists data_file in
  if negb there
  then write_file data_file (Text (to_csv (empty_frame canonical_columns)))
  else ret tt.

(** Lines 24-25: read, parse the dates, coerce the amounts. *)
Definition read_store (f : option file) : res DataFrame :=
  res_bind (res_bind (read_csv f) (parse_dates "Date")) (λ df,
  res_bind (getitem df "Amount") (λ amount,
  Ok (setitem df "Amount" (to_numeric amount)))).

Definition load_data : M DataFrame :=
  try_except
    (let* f := open_read data_file in
     let* df := lift (read_store f) in
     ret (dropna df))
    (λ _, ret (empty_frame canonical_columns)).

Definition save_transaction (date : date) (t_type category description : string)
    (amount : num) : M unit :=
  let new_entry :=
    {| columns := canonical_columns;
       rows := [[Date date; Str t_type; Str category; Str description; Num amount]] |} in
  append_lines data_file (tail (to_csv new_entry)).

(** ** The reporter *)

Definition key_eqb (a b : list cell) : bool :=
  (length a =? length b) && forallb (λ p, cell_eqb p.1 p.2) (zip a b).

(** How many columns carry the label. *)
Definition count_col (name : string) (df : DataFrame) : nat :=
  length (filter (λ c, c = name) (columns df)).

(** The values of a row in the key columns. *)
Definition row_key (df : DataFrame) (keys : list string) (row : list cell) : list cell :=
  map (λ k, field df k row) keys.

(** A group is a key with the values of its rows, in the order of the rows. *)
Fixpoint add_to_group (key : list cell) (v : cell) (groups : list (list cell * list cell))
    : list (list cell * list cell) :=
  match groups with
  | [] => [(key, [v])]
  | (k, vs) :: gs =>
      if key_eqb k key then (k, vs ++ [v]) :: gs
      else (k, vs) :: add_to_group key v gs
  end.

(** Rows with an NA key belong to no group. *)
Fixpoint group_rows (df : DataFrame) (keys : list string) (value : string)
    (rs : list (list cell)) (groups : list (list cell * list cell))
    : list (list cell * list cell) :=
  match rs with
  | [] => groups
  | row :: rs' =>
      let key := row_key df keys row in
      if existsb isnull key then group_rows df keys value rs' groups
      else group_rows df keys value rs' (add_to_group key (field df value row) groups)
  end.

Fixpoint insert_group (g : list cell * list cell) (sorted : list (list cell * list cell))
    : list (list cell * list cell) :=
  match sorted with
  | [] => [g]
  | h :: rest =>
      if key_before g.1 h.1 then g :: h :: rest else h :: insert_group g rest
  end.

(** The groups in the order of their keys. *)
Definition sort_groups (groups : list (list cell * list cell))
    : list (list cell * list cell) :=
  foldr insert_group [] groups.

Fixpoint first_missing (names : list string) (df : DataFrame) : option string :=
  match names with
  | [] => None
  | n :: ns => if has_col n df then first_missing ns df else Some n
  end.

Fixpoint first_repeated (names : list string) (df : DataFrame) : option string :=
  match names with
  | [] => None
  | n :: ns => if 1 <? count_col n df then Some n else first_repeated ns df
  end.

(** [df.groupby(keys)[value].sum().reset_index()].  A label that is not a
    column is a [KeyError].  A key label that several columns carry selects a
    frame, which [groupby] refuses; a repeated value label is taken as the
    same error.  pandas goes through the labels one by one; here the missing
    ones are reported first, which is the same for the tables of the script,
    where Date, Type and Amount are never repeated.  Rows with an NA key are
    left out, the groups come in the order of their keys, and each holds the
    sum of its values. *)
Definition groupby_sum (keys : list string) (value : string) (df : DataFrame)
    : res DataFrame :=
  match first_missing (keys ++ [value]) df with
  | Some n => Raise (KeyError n)
  | None =>
      match first_repeated (keys ++ [value]) df with
      | Some n => Raise (ValueError ("Grouper for '" ++ n ++ "' not 1-dimensional"))
      | None =>
          Ok {| columns := keys ++ [value];
                rows := map (λ g, g.1 ++ [column_sum g.2])
                          (sort_groups (group_rows df keys value (rows df) [])) |}
      end
  end.

(** [not df["Category"].isnull().all()] of line 49.  When several columns
    carry the label, [df["Category"]] is a frame, [all()] gives one truth
    value for each of its columns, and [not] raises on them. *)
Definition some_category (df : DataFrame) : res bool :=
  if 1 <? count_col "Category" df
  then Raise (ValueError "The truth value of a Series is ambiguous. Use a.empty, a.bool(), a.item(), a.any() or a.all().")
  else Ok (negb (forallb isnull (map (field df "Category") (rows df)))).

(** The script returns [[], []] for an empty table and [fig1, fig2] otherwise,
    with [fig2] possibly [None]; its callers only test the results for truth,
    so [[]] and [None] are both [None] here. *)
Definition plot_summary (df : DataFrame) (key_suffix : string)
    : M (option figure * option figure) :=
  emit (st_subheader "📈 Income vs Expense Trend") ;;
  if df_empty df then
    emit (st_warning "No data available to show.") ;;
    ret (None, None)
  else
    let* trend := lift (groupby_sum ["Date"; "Type"] "Amount" df) in
    let fig1 := Line trend in
    emit (st_plotly_chart fig1 ("line_chart_" ++ key_suffix)%string) ;;
    emit (st_subheader "📊 Category-wise Distribution") ;;
    let* shown :=
      if has_col "Category" df then lift (some_category df) else ret false in
    if shown then
      let* cat_df := lift (groupby_sum ["Category"] "Amount" df) in
      let fig2 := Pie cat_df in
      emit (st_plotly_chart fig2 ("pie_chart_" ++ key_suffix)%string) ;;
      ret (Some fig1, Some fig2)
    else ret (Some fig1, None).

Definition get_csv_download (data : DataFrame) : download := CsvBytes (to_csv data).

Definition get_excel_download (data : DataFrame) : download := XlsxBytes data.

(** [fig.write_image(path)] *)
Definition write_image (fig : figure) (path : string) : M unit :=
  if write_image_ok ext fig path then write_file path Binary
  else lift (Raise (ExternalError "write_image")).

Definition save_plot_as_image (fig : figure) (filename : string) : M string :=
  write_image fig filename ;; ret filename.

(** [Paragraph(text, style)] *)
Definition mk_paragraph (text : string) : M flowable :=
  if paragraph_ok ext text then ret (Paragraph text)
  else lift (Raise (ValueError "paragraph markup")).

(** [row[name]] on a row of [iterrows] *)
Definition row_getitem (df : DataFrame) (name : string) (row : list cell) : res cell :=
  match col_index name (columns df) with
  | Some i => Ok (at_col i row)
  | None => Raise (KeyError name)
  end.

Definition report_line (df : DataFrame) (row : list cell) : res string :=
  res_bind (row_getitem df "Date" row) (λ d,
  res_bind (row_getitem df "Type" row) (λ t,
  res_bind (row_getitem df "Category" row) (λ c,
  res_bind (row_getitem df "Description" row) (λ s,
  res_bind (row_getitem df "Amount" row) (λ a,
  Ok (str_cell d ++ " | " ++ str_cell t ++ " | " ++ str_cell c ++ " | "
      ++ str_cell s ++ " | " ++ str_cell a)%string))))).

(** The loop of lines 76-79. *)
Fixpoint report_rows (df : DataFrame) (rs : list (list cell)) (elements : list flowable)
    : M (list flowable) :=
  match rs with
  | [] => ret elements
  | row :: rs' =>
      let* line := lift (report_line df row) in
      let* p := mk_paragraph line in
      report_rows df rs' (elements ++ [p; Spacer 1 6])
  end.

(** [doc.build(elements)] *)
Definition doc_build (elements : list flowable) : M unit :=
  if build_ok ext elements then ret tt
  else lift (Raise (ExternalError "build")).

Definition remove_if_exists (img_path : option string) : M unit :=
  match img_path with
  | Some p =>
      let* there := path_exists p in
      if there then os_remove p else ret tt
  | None => ret tt
  end.

Definition get_pdf_download (data : DataFrame) : M download :=
  let* title := mk_paragraph "Finance Report" in
  let elements := [title; Spacer 1 12] in
  let* elements := report_rows data (rows data) elements in
  let* figs := plot_summary data "pdf" in
  let* r1 :=
    match figs.1 with
    | Some fig1 =>
        let img_path1 := "trend_plot.png" in
        write_image fig1 img_path1 ;;
        ret (Some img_path1, elements ++ [Spacer 1 12; Image img_path1 480 250])
    | None => ret (None, elements)
    end in
  let* r2 :=
    match figs.2 with
    | Some fig2 =>
        let img_path2 := "pie_chart.png" in
        write_image fig2 img_path2 ;;
        ret (Some img_path2, r1.2 ++ [Spacer 1 12; Image img_path2 400 250])
    | None => ret (None, r1.2)
    end in
  doc_build r2.2 ;;
  remove_if_exists r1.1 ;;
  remove_if_exists r2.1 ;;
  ret (PdfBytes r2.2).

(** ** The normalizer *)

Definition lower_ascii (c : ascii) : ascii :=
  let n := nat_of_ascii c in
  if (65 <=? n) && (n <=? 90) then ascii_of_nat (n + 32) else c.

(** [str.lower()], on ASCII letters. *)
Fixpoint lower (s : string) : string :=
  match s with
  | EmptyString => EmptyString
  | String c s' => String (lower_ascii c) (lower s')
  end.

(** [df[name]] handed to [to_datetime] or [to_numeric].  When several columns
    carry the name the selection is a frame, on which the function raises
    [e]. *)
Definition series (df : DataFrame) (name : string) (e : exn) : res (list cell) :=
  if 1 <? count_col name df then Raise e else getitem df name.

Definition schema_message : string :=
  "Uploaded CSV must contain 'Date' and 'Amount' columns.".

(** [lambda x: "Income" if x >= 0 else "Expense"]; a comparison with NaN is
    false.  The column holds numbers only when the script gets here, after
    [to_numeric] and [dropna]; the comparison of a text with 0, which raises,
    has no counterpart. *)
Definition type_of_amount (c : cell) : cell :=
  match c with
  | Num x => if num_nonneg x then Str "Income" else Str "Expense"
  | _ => Str "Expense"
  end.

(** Lines 124-127: the Category column. *)
Definition fill_category (df : DataFrame) : DataFrame :=
  if negb (has_col "category" df)
  then setitem_scalar df "Category" (Str "Uncategorized")
  else rename "category" "Category" df.

(** Lines 129-130: the Description column. *)
Definition fill_description (df : DataFrame) : DataFrame :=
  if negb (has_col "description" df)
  then setitem_scalar df "Description" (Str "")
  else df.

(** Lines 110-130 of [analyze_uploaded_file]: [None] is the early return of
    line 114. *)
Definition normalize (df : DataFrame) : res (option DataFrame) :=
  let df := {| columns := map lower (columns df); rows := rows df |} in
  if negb (has_col "date" df && has_col "amount" df) then Ok None
  else
    res_bind (series df "date"
                (ValueError "cannot assemble with duplicate keys"))
      (λ date_col,
    let df := setitem df "date" (to_datetime date_col) in
    res_bind (series df "amount"
                (TypeError "arg must be a list, tuple, 1-d array, or Series"))
      (λ amount_col,
    let df := setitem df "amount" (to_numeric amount_col) in
    let df := dropna_subset ["date"; "amount"] df in
    let df := rename "amount" "Amount" (rename "date" "Date" df) in
    res_bind (getitem df "Amount") (λ amount,
    let df := setitem df "Type" (map type_of_amount amount) in
    Ok (Some (fill_description (fill_category df)))))).

(** [str(e)]: the key in quotes for a [KeyError], the message otherwise.
    The messages of the read errors depend on the bytes of the file and are
    cut short here. *)
Definition exn_text (e : exn) : string :=
  match e with
  | FileNotFoundError => "No such file or directory"
  | EmptyDataError => "No columns to parse from file"
  | ParserError => "Error tokenizing data"
  | UnicodeDecodeError => "'utf-8' codec can't decode byte"
  | KeyError k => "'" ++ k ++ "'"
  | ValueError m | TypeError m | ExternalError m => m
  end.

Definition analyze_uploaded_file (uploaded_file : file) : M unit :=
  try_except
    (let* df := lift (read_csv (Some uploaded_file)) in
     let* normalized := lift (normalize df) in
     match normalized with
     | None => emit (st_error schema_message)
     | Some df =>
         emit (st_success "✅ File uploaded and processed successfully!") ;;
         emit (st_dataframe df) ;;
         plot_summary df "upload" ;;
         emit (st_subheader "⬇️ Download Processed Data") ;;
         emit (st_download_button "Download CSV" (get_csv_download df)
                 "uploaded_finance_data.csv" "text/csv") ;;
         emit (st_download_button "Download Excel" (get_excel_download df)
                 "uploaded_finance_data.xlsx" "application/vnd.ms-excel") ;;
         let* pdf := get_pdf_download df in
         emit (st_download_button "Download PDF" pdf
                 "uploaded_finance_data.pdf" "application/pdf")
     end)
    (λ e, emit (st_error ("❌ Error processing file: " ++ exn_text e)%string)).

(** ** The pages *)

(** The choice in the sidebar, with what the user enters on the page. *)
Inductive menu :=
| AddTransaction (submit : bool) (date : date) (t_type category description : string)
    (amount : num)
| ViewSummary
| TrendAnalysis (uploaded_file : option file).

(** Lines 153-189.  A run of the script starts with the initialization of
    lines 18-19; page set-up, title and footer are left out. *)
Definition app (m : menu) : M unit :=
  match m with
  | AddTransaction submit date t_type category description amount =>
      emit (st_header "➕ Add Transaction") ;;
      if submit then
        save_transaction date t_type category description amount ;;
        emit (st_success "Transaction saved successfully!")
      else ret tt
  | ViewSummary =>
      emit (st_header "📊 Summary") ;;
      let* data := load_data in
      emit (st_dataframe data) ;;
      plot_summary data "summary" ;;
      if negb (df_empty data) then
        emit (st_subheader "⬇️ Download Data") ;;
        emit (st_download_button "Download CSV" (get_csv_download data)
                "finance_data.csv" "text/csv") ;;
        emit (st_download_button "Download Excel" (get_excel_download data)
                "finance_data.xlsx" "application/vnd.ms-excel") ;;
        let* pdf := get_pdf_download data in
        emit (st_download_button "Download PDF" pdf "finance_data.pdf" "application/pdf")
      else ret tt
  | TrendAnalysis uploaded_file =>
      emit (st_header "📂 Trend Analysis") ;;
      match uploaded_file with
      | Some f => analyze_uploaded_file f
      | None => ret tt
      end
  end.

Definition script (m : menu) : M unit := initialize ;; app m.

(** ** Notions used in the statements *)

(** A frame is rectangular: every row has one cell for each column. *)
Definition rectangular (df : DataFrame) : Prop :=
  Forall (λ row, length row = length (columns df)) (rows df).

Definition is_failure {A} (r : res A) : Prop :=
  match r with Raise _ => True | Ok _ => False end.

(** Every row carries a number as Amount and the Type its sign gives. *)
Definition sign_typed (df : DataFrame) : Prop :=
  ∀ row, row ∈ rows df →
    ∃ x, field df "Amount" row = Num x ∧
         field df "Type" row = Str (if num_nonneg x then "Income" else "Expense").



(** The data lines of a text file, and whether the Amount field of a line
    under a header fails numeric coercion. *)
Definition data_lines (f : file) : list (list string) :=
  match f with Text (_ :: data) => data | _ => [] end.

Definition amount_fails (header line : list string) : bool :=
  match col_index "Amount" header with
  | Some i => isnull (to_numeric_cell (at_col i (read_row (length header) line)))
  | None => true
  end.

(** Running [m] changes no file other than those at [paths]. *)
Definition touches_only {A} (paths : list string) (m : M A) : Prop :=
  ∀ w p, p ∉ paths → fs (m w).2 !! p = fs w !! p.

(** The two image files of the PDF export. *)
Definition image_files : list string := ["trend_plot.png"; "pie_chart.png"].

(** [row] has a value in every key column, and [k] is its key. *)
Definition has_key (df : DataFrame) (keys : list string) (k row : list cell) : bool :=
  negb (existsb isnull (row_key df keys row)) && key_eqb k (row_key df keys row).

(** No two of the keys are equal, be it under different spellings of a
    number. *)
Definition distinct_keys (ks : list (list cell)) : Prop :=
  NoDup ks ∧ ∀ k k', k ∈ ks → k' ∈ ks → key_eqb k k' = true → k = k'.

(** [groups] are the groups of the rows [rs] of [df] by [keys]: a group has
    the key of one of the rows and holds the values of exactly the rows with
    that key, in their order; every row that has a key has a group; and no
    two groups have the same key. *)
Definition groups_of (df : DataFrame) (keys : list string) (value : string)
    (rs : list (list cell)) (groups : list (list cell * list cell)) : Prop :=
  (∀ k vs, (k, vs) ∈ groups →
     vs = map (field df value) (filter (λ r, has_key df keys k r = true) rs) ∧
     ∃ r, r ∈ rs ∧ has_key df keys k r = true ∧ k = row_key df keys r) ∧
  (∀ r, r ∈ rs → existsb isnull (row_key df keys r) = false →
     ∃ k vs, (k, vs) ∈ groups ∧ key_eqb k (row_key df keys r) = true) ∧
  distinct_keys groups.*1.

(** Running [m] only adds to the page. *)
Definition appends {A} (m : M A) : Prop :=
  ∀ w, ∃ more, ui (m w).2 = ui w ++ more.

(** The world after running [m]. *)
Definition after {A} (m : M A) (w : world) : world := (m w).2.

(** The needle occurs in the text. *)
Definition mentions (needle text : string) : bool :=
  bool_decide (is_Some (String.index 0 needle text)).

Fixpoint image_paths (story : list flowable) : list string :=
  match story with
  | [] => []
  | Image path _ _ :: rest => path :: image_paths rest
  | _ :: rest => image_paths rest
  end.

Definition story_of (d : download) : list flowable :=
  match d with PdfBytes story => story | _ => [] end.

(** ** Sample data *)

Definition fresh : world := mk_world ∅ [].

Definition all_ok : collaborators :=
  {| write_image_ok := λ _ _, true; paragraph_ok := λ _, true; build_ok := λ _, true |}.

Definition build_fails : collaborators :=
  {| write_image_ok := λ _ _, true; paragraph_ok := λ _, true; build_ok := λ _, false |}.

Definition salary_row : list cell :=
  [Date (mk_date 2024 1 1); Str "Income"; Str "Salary"; Str "bonus"; Num (mk_num 1000 0)].

Definition one_salary : DataFrame := {| columns := canonical_columns; rows := [salary_row] |}.

Definition week : DataFrame :=
  {| columns := canonical_columns;
     rows := [[Date (mk_date 2024 1 1); Str "Income"; Str "Salary"; Str "bonus";
               Num (mk_num 1000 0)];
              [Date (mk_date 2024 1 2); Str "Expense"; Str "Food"; Str "lunch";
               Num (mk_num 125 1)];
              [Date (mk_date 2024 1 2); Str "Expense"; Str "Food"; Str "dinner";
               Num (mk_num 75 1)]] |}.

(** A store with one sound row without a description and one row whose
    amount is not a number. *)
Definition two_row_store : file :=
  Text [canonical_columns;
        ["2024-01-01"; "Income"; "Salary"; ""; "1000.0"];
        ["2024-01-02"; "Expense"; "Food"; "lunch"; "abc"]].

(** Three data lines: a full one, one without a description, and one whose
    amount is not a number. *)
Definition three_row_store : file :=
  Text [canonical_columns;
        ["2024-01-01"; "Income"; "Salary"; "bonus"; "1000.0"];
        ["2024-01-02"; "Expense"; "Food"; ""; "12.5"];
        ["2024-01-03"; "Expense"; "Food"; "lunch"; "abc"]].

Definition upload_with_type : file :=
  Text [["Date"; "Amount"; "Type"];
        ["2024-02-01"; "-50"; "Income"];
        ["2024-02-02"; "75.5"; "Expense"];
        ["someday"; "10"; "Income"]].

Definition upload_with_description : file :=
  Text [["Date"; "Amount"; "Description"];
        ["2024-02-01"; "-50"; "lunch"]].

Definition upload_without_amount : file :=
  Text [["Date"; "Category"]; ["2024-02-01"; "Food"]].

Definition ledger_lines : list (list string) :=
  [["2024-01-01"; "Income"; "Salary"; "bonus"; "1000.0"];
   ["2024-01-02"; "Expense"; "Food"; ""; "12.5"];
   ["2024-01-03"; "Expense"; "Food"; "lunch"; "abc"]].

Definition ledger : world :=
  {| fs := {[ data_file := Text (canonical_columns :: ledger_lines) ]}; ui := [] |}.

(** A store written by another program: no Type column. *)
Definition foreign_store : world :=
  {| fs := {[ data_file := Text [["Date"; "Category"; "Description"; "Amount"];
                                 ["2024-01-01"; "Salary"; "bonus"; "1000.0"]] ]};
     ui := [] |}.

Definition upload_frame : DataFrame :=
  {| columns := ["Date"; "AMOUNT"; "Note"];
     rows := [[Str "2024-02-01"; Str "-50"; Str "rent"];
              [Str "someday"; Str "10"; Str "x"];
              [Str "2024-02-03"; Null; Str "y"];
              [Str "2024-02-04"; Str "7.5"; Null]] |}.

Definition upload_with_category : DataFrame :=
  {| columns := ["date"; "amount"; "CATEGORY"; "Description"];
     rows := [[Str "2024-02-01"; Str "-50"; Str "Food"; Str "lunch"]] |}.

(** The date column twice, in two casings. *)
Definition upload_date_twice : file :=
  Text [["Date"; "DATE"; "Amount"]; ["2024-02-01"; "2024-02-02"; "5"]].

(** The category column twice, in two casings, and what the normalizer makes
    of it. *)
Definition upload_category_twice : file :=
  Text [["date"; "amount"; "category"; "CATEGORY"];
        ["2024-02-01"; "-50"; "Food"; "Lunch"]].

Definition category_label_twice : DataFrame :=
  {| columns := ["Date"; "Amount"; "Category"; "Category"; "Type"; "Description"];
     rows := [[Date (mk_date 2024 2 1); Num (mk_num (-50) 0); Str "Food"; Str "Lunch";
               Str "Expense"; Str ""]] |}.

Definition frame_without_type : DataFrame :=
  {| columns := ["Date"; "Category"; "Description"; "Amount"];
     rows := [[Date (mk_date 2024 1 1); Str "Salary"; Str "bonus"; Num (mk_num 1000 0)]] |}.

(** ** Frames: general facts *)

Lemma zip_with_map_same {A B C} (f : A → B → C) (g : A → B) (l : list A) :
  zip_with f l (map g l) = map (λ x, f x (g x)) l.
Proof. induction l as [|x l IH]; simpl; [done | by rewrite IH]. Qed.

Lemma col_index_lt name cols i : col_index name cols = Some i → i < length cols.
Proof.
  revert i. induction cols as [|c cs IH]; simpl; intros i H; [done |].
  destruct (decide (c = name)).
  - injection H as <-. lia.
  - destruct (col_index name cs) as [j|]; simpl in H; [|done].
    injection H as <-. specialize (IH j eq_refl). lia.
Qed.

Lemma col_index_None name cols : col_index name cols = None ↔ name ∉ cols.
Proof.
  induction cols as [|c cs IH]; simpl.
  - split; [intros _; apply not_elem_of_nil | done].
  - destruct (decide (c = name)) as [->|Hne].
    + split; [done | intros H; exfalso; apply H; left].
    + rewrite not_elem_of_cons. destruct (col_index name cs); simpl.
      * split; [done | intros [_ H]; by apply IH in H].
      * split; [intros _; split; [congruence | by apply IH] | done].
Qed.

Lemma col_index_lookup name cols i : col_index name cols = Some i → cols !! i = Some name.
Proof.
  revert i. induction cols as [|c cs IH]; simpl; intros i H; [done |].
  destruct (decide (c = name)) as [->|].
  - by injection H as <-.
  - destruct (col_index name cs) as [j|]; simpl in H; [|done].
    injection H as <-. by apply IH.
Qed.

Lemma col_index_app_l name cols more i :
  col_index name cols = Some i → col_index name (cols ++ more) = Some i.
Proof.
  revert i. induction cols as [|c cs IH]; simpl; intros i H; [done |].
  destruct (decide (c = name)); [done |].
  destruct (col_index name cs) as [j|]; simpl in H; [|done].
  by rewrite (IH j eq_refl).
Qed.

Lemma col_index_app_new name cols :
  name ∉ cols → col_index name (cols ++ [name]) = Some (length cols).
Proof.
  induction cols as [|c cs IH]; simpl; intros H.
  - by rewrite decide_True.
  - apply not_elem_of_cons in H as [Hne Hin].
    rewrite decide_False by congruence. by rewrite IH.
Qed.

Lemma setitem_map_rows df name (g : list cell → cell) :
  rows (setitem df name (map g (rows df))) =
  map (λ row, match col_index name (columns df) with
              | Some i => <[i := g row]> row
              | None => row ++ [g row]
              end) (rows df).
Proof.
  unfold setitem. destruct (col_index name (columns df)); simpl;
    by rewrite zip_with_map_same.
Qed.

Lemma setitem_columns df name vals :
  columns (setitem df name vals) =
  match col_index name (columns df) with
  | Some _ => columns df
  | None => columns df ++ [name]
  end.
Proof. unfold setitem. by destruct (col_index name (columns df)). Qed.

Lemma getitem_Ok df name col :
  getitem df name = Ok col →
  ∃ i, col_index name (columns df) = Some i ∧ col = map (at_col i) (rows df).
Proof.
  unfold getitem. destruct (col_index name (columns df)) as [i|]; [|done].
  intros [= <-]. by exists i.
Qed.

Lemma rectangular_setitem df name (g : list cell → cell) :
  rectangular df → rectangular (setitem df name (map g (rows df))).
Proof.
  unfold rectangular. rewrite setitem_map_rows, setitem_columns.
  intros H. apply Forall_fmap. eapply Forall_impl; [exact H |].
  simpl. intros row Hrow. destruct (col_index name (columns df)).
  - by rewrite length_insert.
  - rewrite !length_app. simpl. lia.
Qed.


Lemma read_row_length width line :
  length line ≤ width → length (read_row width line) = width.
Proof.
  intros H. unfold read_row. rewrite length_app, length_map, length_replicate. lia.
Qed.

Lemma read_csv_rectangular f df : read_csv f = Ok df → rectangular df.
Proof.
  destruct f as [[[|header data]|]|]; simpl; try done.
  destruct (forallb _ data) eqn:Hall; [|done].
  intros [= <-]. unfold rectangular. simpl.
  apply Forall_fmap, Forall_forall. intros line Hin. simpl.
  apply read_row_length.
  rewrite forallb_forall in Hall. apply Nat.leb_le, Hall.
  by apply list_elem_of_In.
Qed.

(** ** The store *)

Lemma parse_dates_rectangular name df df' :
  parse_dates name df = Ok df' → rectangular df → rectangular df'.
Proof.
  unfold parse_dates. destruct (getitem df name) as [col|] eqn:Hget; [|done].
  apply getitem_Ok in Hget as (i & _ & ->).
  destruct (forallb _ _); intros [= <-] Hrect; [|done].
  unfold to_datetime. rewrite map_map. by apply rectangular_setitem.
Qed.


(** What [load_data] comes to: the try block either hands on the coerced
    table without its rows that hold a null, or the handler answers. *)
Lemma load_data_run w :
  load_data w =
  (Ok match read_store (fs w !! data_file) with
      | Ok df => dropna df
      | Raise _ => empty_frame canonical_columns
      end, w).
Proof.
  unfold load_data, try_except, bind, open_read, lift, ret.
  by destruct (read_store (fs w !! data_file)).
Qed.

Lemma dropna_rows df row :
  row ∈ rows (dropna df) ↔ row ∈ rows df ∧ ∀ c, c ∈ row → isnull c = false.
Proof.
  unfold dropna. simpl. rewrite list_elem_of_filter, forallb_forall.
  split; intros [H1 H2]; split; try done.
  - intros c Hc. apply list_elem_of_In, H1, negb_true_iff in Hc. done.
  - intros c Hc. apply negb_true_iff, H2. by apply list_elem_of_In.
Qed.

(** C7. Initialization is idempotent.  It never fails, and run any number
    of times it creates the data file with the header line and no data line
    when the file is not there, and changes nothing at all when the file is
    there. *)
Theorem initialize_idempotent (w : world) (n : nat) :
  (initialize w).1 = Ok tt ∧
  Nat.iter n (after initialize) w =
  match fs w !! data_file, n with
  | None, S _ =>
      {| fs := <[data_file := Text [canonical_columns]]> (fs w); ui := ui w |}
  | _, _ => w
  end.
Proof.
  split.
  { unfold initialize, bind, path_exists, write_file, ret.
    by destruct (fs w !! data_file). }
  assert (Hstep : ∀ v, after initialize v =
            match fs v !! data_file with
            | None => {| fs := <[data_file := Text [canonical_columns]]> (fs v);
                         ui := ui v |}
            | Some _ => v
            end).
  { intros v. unfold after, initialize, bind, path_exists, write_file, ret.
    destruct (fs v !! data_file) as [f|] eqn:Hf; by simpl. }
  induction n as [|n IH]; simpl.
  - by destruct (fs w !! data_file).
  - rewrite IH, Hstep. destruct (fs w !! data_file) as [f|] eqn:Hf.
    + by rewrite Hf.
    + destruct n; [by rewrite Hf |]. simpl. by rewrite lookup_insert_eq.
Qed.


(** C10. Every row of the table [load_data] returns is free of nulls in
    all its columns: the rows returned are those rows of the coerced table in
    which no cell is null, whichever column the null would be in.  An empty
    field is read back as a null, so a row stored with an empty Category or
    Description is among the excluded ones. *)
Theorem load_data_rows_fully_non_null (w w' : world) (df : DataFrame) :
  load_data w = (Ok df, w') →
  (∀ row c, row ∈ rows df → c ∈ row → isnull c = false) ∧
  (∀ coerced, read_store (fs w !! data_file) = Ok coerced →
     ∀ row, row ∈ rows df ↔
            row ∈ rows coerced ∧ ∀ c, c ∈ row → isnull c = false) ∧
  read_field "" = Null.
Proof.
  rewrite load_data_run. intros [= <- <-].
  destruct (read_store (fs w !! data_file)) as [coerced|e].
  - split; [|split; [|done]].
    + intros row c Hrow. apply dropna_rows in Hrow as [_ H]. apply H.
    + intros ? [= <-] row. apply dropna_rows.
  - split; [|split; [|done]]; [|done].
    simpl. intros row c Hrow. by apply elem_of_nil in Hrow.
Qed.

Lemma filter_split_length {A} (P : A → Prop) `{∀ x, Decision (P x)} (l : list A) :
  length (filter P l) + length (filter (λ x, ¬ P x) l) = length l.
Proof.
  induction l as [|x l IH]; [done |].
  rewrite !filter_cons. destruct (decide (P x)).
  - rewrite decide_False by tauto. simpl. lia.
  - rewrite decide_True by done. simpl. lia.
Qed.

(** The number of rows returned is the number of coerced rows less those
    with a null in some column, whichever column it is. *)
Lemma load_data_row_count w coerced :
  read_store (fs w !! data_file) = Ok coerced →
  ∃ df, load_data w = (Ok df, w) ∧
        length (rows df)
        + length (filter (λ row, ¬ forallb (λ c, negb (isnull c)) row = true)
                    (rows coerced))
        = length (rows coerced).
Proof.
  intros Hstore. rewrite load_data_run, Hstore. eexists. split; [done |].
  unfold dropna. simpl. apply filter_split_length.
Qed.

(** ** The normalizer *)

Lemma has_col_false n df : has_col n df = false ↔ n ∉ columns df.
Proof. unfold has_col. by rewrite bool_decide_eq_false. Qed.

Lemma has_col_true n df : has_col n df = true ↔ n ∈ columns df.
Proof. unfold has_col. by rewrite bool_decide_eq_true. Qed.

Lemma lower_ascii_range c :
  (nat_of_ascii (lower_ascii c) <? 65) || (90 <? nat_of_ascii (lower_ascii c)) = true.
Proof. by destruct c as [[] [] [] [] [] [] [] []]. Qed.

Lemma lower_not_capitalised s c t :
  65 ≤ nat_of_ascii c ≤ 90 → lower s ≠ String c t.
Proof.
  intros Hc. destruct s as [|c' s']; simpl; [done |]. intros [= Heq _].
  pose proof (lower_ascii_range c') as H. rewrite Heq in H.
  apply orb_true_iff in H as [H|H]; [apply Nat.ltb_lt in H | apply Nat.ltb_lt in H]; lia.
Qed.

Lemma capitalised_not_lowered c t cols :
  65 ≤ nat_of_ascii c ≤ 90 → String c t ∉ map lower cols.
Proof.
  intros Hc Hin. apply list_elem_of_fmap in Hin as (s & Heq & _).
  symmetry in Heq. by apply lower_not_capitalised in Heq.
Qed.

Lemma series_Ok df name e col : series df name e = Ok col → getitem df name = Ok col.
Proof. unfold series. by destruct (1 <? count_col name df). Qed.

(** The early return of line 114 is taken exactly when a required column is
    missing. *)
Lemma normalize_None df :
  normalize df = Ok None ↔
  "date" ∉ map lower (columns df) ∨ "amount" ∉ map lower (columns df).
Proof.
  unfold normalize.
  set (df0 := {| columns := map lower (columns df); rows := rows df |}).
  destruct (has_col "date" df0) eqn:Hd; simpl.
  - destruct (has_col "amount" df0) eqn:Ha; simpl.
    + apply has_col_true in Hd, Ha. simpl in Hd, Ha.
      split; [|intros [H|H]; done].
      destruct (series df0 "date" _); simpl; [|done].
      destruct (series _ "amount" _); simpl; [|done].
      destruct (getitem _ "Amount"); simpl; done.
    + apply has_col_false in Ha. simpl in Ha. split; [by right | done].
  - apply has_col_false in Hd. simpl in Hd. split; [by left | done].
Qed.

(** C4, as amended. An upload without a date column or without an
    amount column, in any casing, is refused with the schema message: the
    message is the only thing that happens, so no table is shown, charted or
    offered for download and no file is touched.  The message is a fixed
    text that names both required columns, and it is given for no other
    upload.  It is not the only refusal: an upload that has both columns,
    one of them under a name that occurs twice once the names are
    lower-cased, makes pandas raise, and the page gets the message of the
    generic handler instead of a table. *)
Theorem schema_error_iff_column_missing (uploaded : file) (df : DataFrame) (w : world) :
  read_csv (Some uploaded) = Ok df →
  let lowered := {| columns := map lower (columns df); rows := rows df |} in
  let missing := "date" ∉ columns lowered ∨ "amount" ∉ columns lowered in
  (normalize df = Ok None ↔ missing) ∧
  (missing →
     analyze_uploaded_file uploaded w
     = (Ok tt, {| fs := fs w; ui := ui w ++ [st_error schema_message] |})) ∧
  mentions "'Date'" schema_message = true ∧
  mentions "'Amount'" schema_message = true ∧
  (¬ missing →
   1 < count_col "date" lowered ∨ 1 < count_col "amount" lowered →
   is_failure (normalize df) ∧
   ∃ detail,
     analyze_uploaded_file uploaded w
     = (Ok tt,
        {| fs := fs w;
           ui := ui w ++ [st_error ("❌ Error processing file: " ++ detail)%string] |})).
Proof.
  intros Hread lowered missing.
  assert (Hnone : normalize df = Ok None ↔ missing) by apply normalize_None.
  split; [done |]. split.
  { intros Hmiss. apply Hnone in Hmiss.
    unfold analyze_uploaded_file, try_except, bind, lift. by rewrite Hread, Hmiss. }
  split; [done |]. split; [done |]. intros Hboth Hdup.
  assert (Hd : has_col "date" lowered = true).
  { destruct (has_col "date" lowered) eqn:H; [done |].
    exfalso. apply Hboth. left. by apply has_col_false in H. }
  assert (Ha : has_col "amount" lowered = true).
  { destruct (has_col "amount" lowered) eqn:H; [done |].
    exfalso. apply Hboth. right. by apply has_col_false in H. }
  assert (∃ e, normalize df = Raise e) as [e He].
  { unfold normalize. fold lowered. rewrite Hd, Ha. simpl. unfold series at 1.
    destruct (1 <? count_col "date" lowered) eqn:Hcd; simpl; [by eexists |].
    apply Nat.ltb_ge in Hcd. destruct Hdup as [Hdup|Hdup]; [lia |].
    unfold getitem at 1.
    destruct (col_index "date" (columns lowered)) as [i|] eqn:Hi;
      [|apply col_index_None in Hi; by apply has_col_true in Hd].
    simpl. set (df1 := setitem lowered "date" _).
    assert (Hc1 : columns df1 = columns lowered).
    { unfold df1. by rewrite setitem_columns, Hi. }
    unfold series. unfold count_col at 1. rewrite Hc1.
    fold (count_col "amount" lowered).
    apply Nat.ltb_lt in Hdup. rewrite Hdup. simpl. by eexists. }
  split; [by rewrite He |]. exists (exn_text e).
  unfold analyze_uploaded_file, try_except, bind, lift. by rewrite Hread, He.
Qed.

Lemma at_col_app_l i row more : i < length row → at_col i (row ++ more) = at_col i row.
Proof. intros H. unfold at_col. by rewrite lookup_app_l. Qed.

Lemma at_col_app_new row v : at_col (length row) (row ++ [v]) = v.
Proof. unfold at_col. by rewrite list_lookup_middle. Qed.

Lemma at_col_insert i v row : i < length row → at_col i (<[i := v]> row) = v.
Proof. intros H. unfold at_col. by rewrite list_lookup_insert_eq. Qed.

Lemma replicate_as_map {A B} (l : list A) (v : B) :
  replicate (length l) v = map (λ _, v) l.
Proof. induction l; simpl; [done | by f_equal]. Qed.

Lemma elem_of_rename (c old new : string) cols :
  c ∈ map (λ c, if decide (c = old) then new else c) cols → c = new ∨ c ∈ cols.
Proof.
  intros H. apply list_elem_of_fmap in H as (y & -> & Hy).
  destruct (decide (y = old)); [by left | by right].
Qed.

Lemma col_index_rename_other (name old new : string) cols :
  name ≠ old → name ≠ new →
  col_index name (map (λ c, if decide (c = old) then new else c) cols)
  = col_index name cols.
Proof.
  intros Ho Hn. induction cols as [|c cs IH]; simpl; [done |]. rewrite IH.
  destruct (decide (c = old)) as [->|].
  - rewrite !decide_False by congruence. done.
  - done.
Qed.

Lemma col_index_rename_new (old new : string) cols :
  new ∉ cols →
  col_index new (map (λ c, if decide (c = old) then new else c) cols)
  = col_index old cols.
Proof.
  induction cols as [|c cs IH]; simpl; intros H; [done |].
  apply not_elem_of_cons in H as [Hne Hin]. rewrite (IH Hin).
  destruct (decide (c = old)) as [->|Hc].
  - by rewrite decide_True.
  - by rewrite decide_False by congruence.
Qed.

Lemma rows_add_column df n (g : list cell → cell) row :
  n ∉ columns df →
  row ∈ rows (setitem df n (map g (rows df))) ↔
  ∃ r, r ∈ rows df ∧ row = r ++ [g r].
Proof.
  intros Hnew. rewrite setitem_map_rows.
  apply col_index_None in Hnew as ->. rewrite list_elem_of_fmap.
  split; [intros (r & -> & Hr); by exists r | intros (r & Hr & ->); by exists r].
Qed.

(** A column that is there keeps its value in every row when a new column
    is added. *)
Lemma field_add_column df n (g : list cell → cell) name r :
  rectangular df → n ∉ columns df → r ∈ rows df → name ∈ columns df →
  field (setitem df n (map g (rows df))) name (r ++ [g r]) = field df name r.
Proof.
  intros Hrect Hnew Hr Hname. unfold rectangular in Hrect.
  rewrite Forall_forall in Hrect. specialize (Hrect r Hr).
  unfold field. rewrite setitem_columns. apply col_index_None in Hnew as ->.
  destruct (col_index name (columns df)) as [i|] eqn:Hi.
  - rewrite (col_index_app_l _ _ _ _ Hi). apply col_index_lt in Hi.
    by rewrite at_col_app_l by lia.
  - by apply col_index_None in Hi.
Qed.

Lemma field_new_column df n (g : list cell → cell) r :
  rectangular df → n ∉ columns df → r ∈ rows df →
  field (setitem df n (map g (rows df))) n (r ++ [g r]) = g r.
Proof.
  intros Hrect Hnew Hr. unfold rectangular in Hrect.
  rewrite Forall_forall in Hrect. specialize (Hrect r Hr).
  unfold field. rewrite setitem_columns. apply col_index_None in Hnew as Hnone.
  rewrite Hnone, (col_index_app_new _ _ Hnew), <- Hrect. apply at_col_app_new.
Qed.

Lemma field_not_null_column df name row :
  isnull (field df name row) = false → name ∈ columns df.
Proof.
  unfold field. destruct (col_index name (columns df)) as [i|] eqn:Hi; [|done].
  intros _. apply col_index_lookup in Hi. by eapply list_elem_of_lookup_2.
Qed.

Lemma elem_of_rename_other (c old new : string) cols :
  c ≠ old → c ∈ cols → c ∈ map (λ c, if decide (c = old) then new else c) cols.
Proof.
  intros Hne Hc. apply list_elem_of_fmap. exists c. by rewrite decide_False.
Qed.

Lemma elem_of_rename_new (old new : string) cols :
  old ∈ cols → new ∈ map (λ c, if decide (c = old) then new else c) cols.
Proof.
  intros Hc. apply list_elem_of_fmap. exists old. by rewrite decide_True.
Qed.

Lemma not_elem_of_rename_old (old new : string) cols :
  old ≠ new → old ∉ map (λ c, if decide (c = old) then new else c) cols.
Proof.
  intros Hne Hc. apply list_elem_of_fmap in Hc as (y & Hy & _).
  destruct (decide (y = old)); congruence.
Qed.

(** Adding a column leaves the Amount and Type of every row as they are. *)
Lemma sign_typed_add_column df n (g : list cell → cell) :
  rectangular df → n ∉ columns df → sign_typed df →
  sign_typed (setitem df n (map g (rows df))).
Proof.
  intros Hrect Hnew Htyped row Hrow.
  apply rows_add_column in Hrow as (r & Hr & ->); [|done].
  destruct (Htyped r Hr) as (x & Ha & Ht). exists x.
  rewrite !field_add_column; try done.
  - apply (field_not_null_column df "Type" r). by rewrite Ht.
  - apply (field_not_null_column df "Amount" r). by rewrite Ha.
Qed.

Lemma sign_typed_rename df old new :
  old ≠ "Amount" → old ≠ "Type" → new ≠ "Amount" → new ≠ "Type" →
  sign_typed df → sign_typed (rename old new df).
Proof.
  intros H1 H2 H3 H4 Htyped row Hrow. destruct (Htyped row Hrow) as (x & Ha & Ht).
  exists x. unfold field, rename in *. simpl.
  rewrite !col_index_rename_other by congruence. done.
Qed.

Lemma rectangular_rename df old new : rectangular df → rectangular (rename old new df).
Proof. unfold rectangular, rename. simpl. by rewrite length_map. Qed.

Lemma rectangular_dropna_subset names df :
  rectangular df → rectangular (dropna_subset names df).
Proof.
  unfold rectangular, dropna_subset. simpl. rewrite !Forall_forall.
  intros H row Hin. apply list_elem_of_filter in Hin as [_ Hin]. by apply H.
Qed.

Lemma setitem_scalar_as_map df n v :
  setitem_scalar df n v = setitem df n (map (λ _, v) (rows df)).
Proof. unfold setitem_scalar. by rewrite replicate_as_map. Qed.

(** Settles that a capitalised name is not among columns that were lowered
    and then renamed or extended by known names. *)
Ltac not_a_column :=
  let H := fresh "Hcol" in
  intros H;
  repeat match type of H with
  | _ ∈ _ ++ _ => apply elem_of_app in H as [H|H]
  | _ ∈ [] => by apply elem_of_nil in H
  | _ ∈ _ :: _ => apply elem_of_cons in H as [H|H]
  | _ ∈ map lower _ => apply capitalised_not_lowered in H; [done | vm_compute; lia]
  | _ ∈ map _ _ => apply elem_of_rename in H as [H|H]
  | _ = _ => discriminate H
  end.

Lemma to_numeric_cell_not_null c :
  isnull (to_numeric_cell c) = false → ∃ x, to_numeric_cell c = Num x.
Proof.
  destruct c as [|t|x|d]; simpl; try done.
  - destruct (parse_number t) as [x|]; [by exists x | done].
  - by exists x.
Qed.

Lemma canonical_with_category (c : string) :
  c ∈ ["Date"; "Amount"; "Type"] → c ∈ ["Date"; "Amount"; "Type"; "Category"].
Proof.
  intros H. repeat (apply elem_of_cons in H as [->|H]; [by repeat constructor |]).
  by apply elem_of_nil in H.
Qed.

(** What is known of the columns while the normalizer runs: canonical names
    it has put there, and lowered names of the upload. *)
Lemma fill_category_columns (lowered : list string) df :
  (∀ c, c ∈ columns df → c ∈ ["Date"; "Amount"; "Type"] ∨ c ∈ map lower lowered) →
  ∀ c, c ∈ columns (fill_category df) →
       c ∈ ["Date"; "Amount"; "Type"; "Category"] ∨ c ∈ map lower lowered.
Proof.
  intros Hcols c. unfold fill_category. destruct (has_col "category" df); simpl.
  - intros Hc. apply elem_of_rename in Hc as [->|Hc]; [left; by repeat constructor |].
    apply Hcols in Hc as [Hc|Hc]; [left | by right].
    by apply canonical_with_category.
  - rewrite setitem_scalar_as_map, setitem_columns.
    destruct (col_index "Category" (columns df)).
    + intros Hc. apply Hcols in Hc as [Hc|Hc]; [left | by right].
      by apply canonical_with_category.
    + intros Hc. apply elem_of_app in Hc as [Hc|Hc].
      * apply Hcols in Hc as [Hc|Hc]; [left | by right].
        by apply canonical_with_category.
      * apply list_elem_of_singleton in Hc as ->. left. by repeat constructor.
Qed.

Lemma fill_category_sign_typed (lowered : list string) df :
  (∀ c, c ∈ columns df → c ∈ ["Date"; "Amount"; "Type"] ∨ c ∈ map lower lowered) →
  rectangular df → sign_typed df →
  sign_typed (fill_category df) ∧ rectangular (fill_category df).
Proof.
  intros Hcols Hrect Htyped. unfold fill_category.
  destruct (has_col "category" df); simpl.
  - split; [by apply sign_typed_rename | by apply rectangular_rename].
  - rewrite setitem_scalar_as_map.
    assert ("Category" ∉ columns df) as Hno.
    { intros Hc. apply Hcols in Hc as [Hc|Hc]; revert Hc; not_a_column. }
    split; [by apply sign_typed_add_column | by apply rectangular_setitem].
Qed.

Lemma fill_description_sign_typed (lowered : list string) df :
  (∀ c, c ∈ columns df →
        c ∈ ["Date"; "Amount"; "Type"; "Category"] ∨ c ∈ map lower lowered) →
  rectangular df → sign_typed df →
  sign_typed (fill_description df) ∧ rectangular (fill_description df).
Proof.
  intros Hcols Hrect Htyped. unfold fill_description.
  destruct (has_col "description" df); simpl; [done |].
  rewrite setitem_scalar_as_map.
  assert ("Description" ∉ columns df) as Hno.
  { intros Hc. apply Hcols in Hc as [Hc|Hc]; revert Hc; not_a_column. }
  split; [by apply sign_typed_add_column | by apply rectangular_setitem].
Qed.

(** The table after line 122: the rows that kept a date and an amount, with
    the Type column derived from the amount. *)
Lemma normalize_stages df df' :
  rectangular df → normalize df = Ok (Some df') →
  ∃ typed,
    df' = fill_description (fill_category typed) ∧
    rectangular typed ∧ sign_typed typed ∧
    columns typed =
      map (λ c, if decide (c = "amount") then "Amount" else c)
        (map (λ c, if decide (c = "date") then "Date" else c)
           (map lower (columns df))) ++ ["Type"].
Proof.
  intros Hrect. unfold normalize.
  set (df0 := {| columns := map lower (columns df); rows := rows df |}).
  assert (Hrect0 : rectangular df0).
  { unfold rectangular in *. simpl. by rewrite length_map. }
  destruct (negb _); [done |].
  destruct (series df0 "date" _) as [date_col|] eqn:Hs1; [|done]. simpl.
  apply series_Ok, getitem_Ok in Hs1 as (i & Hi & ->).
  unfold to_datetime. rewrite map_map.
  set (df1 := setitem df0 "date" _).
  assert (Hrect1 : rectangular df1) by by apply rectangular_setitem.
  assert (Hc1 : columns df1 = map lower (columns df)).
  { unfold df1. by rewrite setitem_columns, Hi. }
  destruct (series df1 "amount" _) as [amount_col|] eqn:Hs2; [|done]. simpl.
  apply series_Ok, getitem_Ok in Hs2 as (j & Hj & ->).
  unfold to_numeric. rewrite map_map.
  set (df2 := setitem df1 "amount" _).
  assert (Hrect2 : rectangular df2) by by apply rectangular_setitem.
  assert (Hc2 : columns df2 = map lower (columns df)).
  { unfold df2. by rewrite setitem_columns, Hj. }
  set (df3 := dropna_subset _ df2).
  set (df4 := rename "amount" "Amount" (rename "date" "Date" df3)).
  assert (Hc4 : columns df4 =
    map (λ c, if decide (c = "amount") then "Amount" else c)
      (map (λ c, if decide (c = "date") then "Date" else c) (map lower (columns df)))).
  { unfold df4, df3, rename, dropna_subset. simpl. by rewrite Hc2. }
  destruct (getitem df4 "Amount") as [amount|] eqn:Hg; [|done]. simpl.
  apply getitem_Ok in Hg as (k & Hk & ->). rewrite map_map.
  assert (k = j) as ->.
  { rewrite Hc4, col_index_rename_new, col_index_rename_other in Hk by (done || not_a_column).
    rewrite Hc1 in Hj. congruence. }
  set (df5 := setitem df4 "Type" _).
  assert (Hno_type : "Type" ∉ columns df4) by (rewrite Hc4; not_a_column).
  assert (Hc5 : columns df5 = columns df4 ++ ["Type"]).
  { unfold df5. rewrite setitem_columns.
    apply col_index_None in Hno_type. by rewrite Hno_type. }
  assert (Hrect4 : rectangular df4).
  { by apply rectangular_rename, rectangular_rename, rectangular_dropna_subset. }
  assert (Hrect5 : rectangular df5) by by apply (rectangular_setitem df4).
  assert (Htyped5 : sign_typed df5).
  { intros row Hrow. unfold df5 in Hrow. rewrite setitem_map_rows in Hrow.
    apply col_index_None in Hno_type as Hnone. rewrite Hnone in Hrow.
    apply list_elem_of_fmap in Hrow as (r & -> & Hr).
    simpl in Hr. apply list_elem_of_filter in Hr as [Hkeep Hr].
    simpl in Hkeep. rewrite !andb_true_iff, !negb_true_iff in Hkeep.
    destruct Hkeep as (_ & Hamount & _).
    unfold field in Hamount. rewrite Hc2, <- Hc1, Hj in Hamount.
    unfold df2 in Hr. rewrite setitem_map_rows, Hj in Hr.
    apply list_elem_of_fmap in Hr as (r1 & -> & Hr1).
    unfold rectangular in Hrect1. rewrite Forall_forall in Hrect1.
    specialize (Hrect1 r1 Hr1). apply col_index_lt in Hj as Hlt.
    rewrite at_col_insert in Hamount by lia.
    apply to_numeric_cell_not_null in Hamount as (x & Hx). exists x.
    unfold field. rewrite Hc5.
    rewrite (col_index_app_l _ _ _ _ Hk), (col_index_app_new _ _ Hno_type).
    rewrite at_col_app_l by (rewrite length_insert; lia).
    rewrite at_col_insert by lia. rewrite Hx. split; [done |].
    replace (length (columns df4)) with (length (<[j := Num x]> r1)).
    - rewrite at_col_app_new. simpl. by destruct (num_nonneg x).
    - rewrite length_insert, Hrect1, Hc1, Hc4, !length_map. done. }
  intros [= <-]. exists df5. by rewrite Hc5, Hc4.
Qed.

Lemma typed_columns_known (lowered cols : list string) :
  cols = map (λ c, if decide (c = "amount") then "Amount" else c)
           (map (λ c, if decide (c = "date") then "Date" else c)
              (map lower lowered)) ++ ["Type"] →
  ∀ c, c ∈ cols → c ∈ ["Date"; "Amount"; "Type"] ∨ c ∈ map lower lowered.
Proof.
  intros -> c Hc.
  apply elem_of_app in Hc as [Hc|Hc];
    [|apply list_elem_of_singleton in Hc as ->; left; by repeat constructor].
  apply elem_of_rename in Hc as [->|Hc]; [left; by repeat constructor |].
  apply elem_of_rename in Hc as [->|Hc]; [left; by repeat constructor |]. by right.
Qed.

Lemma normalize_sign_typed df df' :
  rectangular df → normalize df = Ok (Some df') → sign_typed df' ∧ rectangular df'.
Proof.
  intros Hrect Hnorm.
  destruct (normalize_stages _ _ Hrect Hnorm) as (typed & -> & Hr & Ht & Hc).
  pose proof (typed_columns_known (columns df) _ Hc) as Hknown.
  destruct (fill_category_sign_typed _ _ Hknown Hr Ht) as [Ht' Hr'].
  apply (fill_description_sign_typed (columns df)); try done.
  by apply fill_category_columns.
Qed.


(** C3. In every table the normalizer produces from an upload, each row
    has a number as Amount, and its Type is "Income" when that number is at
    least zero and "Expense" when it is below zero.  Nothing is assumed about
    the columns of the upload: a type column of its own has no say. *)
Theorem derived_type_follows_amount_sign (uploaded : file) (df df' : DataFrame) :
  read_csv (Some uploaded) = Ok df →
  normalize df = Ok (Some df') →
  ∀ row, row ∈ rows df' →
    ∃ x, field df' "Amount" row = Num x ∧
         ((0 ≤ mant x)%Z → field df' "Type" row = Str "Income") ∧
         ((mant x < 0)%Z → field df' "Type" row = Str "Expense").
Proof.
  intros Hread Hnorm row Hrow.
  apply read_csv_rectangular in Hread.
  destruct (normalize_sign_typed _ _ Hread Hnorm) as [Htyped _].
  destruct (Htyped row Hrow) as (x & Ha & Ht). exists x.
  split; [done |]. rewrite Ht. unfold num_nonneg.
  split; intros Hsign.
  - by rewrite (proj2 (Z.leb_le _ _) Hsign).
  - by rewrite (proj2 (Z.leb_gt _ _) Hsign).
Qed.

(** *** Category and Description *)

Lemma columns_add_scalar df n v :
  n ∉ columns df → columns (setitem_scalar df n v) = columns df ++ [n].
Proof.
  intros Hnew. rewrite setitem_scalar_as_map, setitem_columns.
  by apply col_index_None in Hnew as ->.
Qed.

Lemma typed_columns_lowered (lowered cols : list string) (c : string) :
  cols = map (λ c, if decide (c = "amount") then "Amount" else c)
           (map (λ c, if decide (c = "date") then "Date" else c)
              (map lower lowered)) ++ ["Type"] →
  c ≠ "date" → c ≠ "amount" → c ∈ map lower lowered → c ∈ cols.
Proof.
  intros -> Hd Ha Hc. apply elem_of_app. left.
  by apply elem_of_rename_other, elem_of_rename_other.
Qed.

(** X5. Without a category column in the upload, every row of the
    normalized table has the Category "Uncategorized". *)
Lemma normalize_category_default df df' :
  rectangular df → normalize df = Ok (Some df') →
  "category" ∉ map lower (columns df) →
  ∀ row, row ∈ rows df' → field df' "Category" row = Str "Uncategorized".
Proof.
  intros Hrect Hnorm Hno.
  destruct (normalize_stages _ _ Hrect Hnorm) as (typed & -> & Hr & Ht & Hc).
  pose proof (typed_columns_known (columns df) _ Hc) as Hknown.
  assert (Hno_cat : "category" ∉ columns typed).
  { intros H. apply Hknown in H as [H|H]; [revert H; not_a_column | done]. }
  assert (Hno_Cat : "Category" ∉ columns typed).
  { intros H. apply Hknown in H as [H|H]; revert H; not_a_column. }
  pose proof (fill_category_columns _ _ Hknown) as Hknown'.
  destruct (fill_category_sign_typed _ _ Hknown Hr Ht) as [_ Hr'].
  assert (Hcat : ∀ r, r ∈ rows (fill_category typed) →
            field (fill_category typed) "Category" r = Str "Uncategorized").
  { unfold fill_category. apply has_col_false in Hno_cat as ->. simpl.
    rewrite setitem_scalar_as_map. intros r Hin.
    apply rows_add_column in Hin as (r0 & Hr0 & ->); [|done].
    by rewrite field_new_column. }
  assert (HCat_in : "Category" ∈ columns (fill_category typed)).
  { unfold fill_category. apply has_col_false in Hno_cat as ->. simpl.
    rewrite columns_add_scalar by done. apply elem_of_app. right. by left. }
  revert Hcat Hr' Hknown' HCat_in. generalize (fill_category typed) as df6.
  intros df6 Hcat Hr' Hknown' HCat_in row. unfold fill_description.
  destruct (has_col "description" df6); simpl; [by apply Hcat |].
  assert ("Description" ∉ columns df6) as Hno_desc.
  { intros H. apply Hknown' in H as [H|H]; revert H; not_a_column. }
  rewrite setitem_scalar_as_map. intros Hin.
  apply rows_add_column in Hin as (r0 & Hr0 & ->); [|done].
  rewrite field_add_column by done. by apply Hcat.
Qed.

(** X6. A category column of the upload, in any casing, is renamed to
    [Category]: the normalized table has that column and none named
    [category]. *)
Lemma normalize_category_renamed df df' :
  rectangular df → normalize df = Ok (Some df') →
  "category" ∈ map lower (columns df) →
  "Category" ∈ columns df' ∧ "category" ∉ columns df'.
Proof.
  intros Hrect Hnorm Hyes.
  destruct (normalize_stages _ _ Hrect Hnorm) as (typed & -> & Hr & Ht & Hc).
  pose proof (typed_columns_known (columns df) _ Hc) as Hknown.
  pose proof (fill_category_columns _ _ Hknown) as Hknown'.
  assert (Hin : "category" ∈ columns typed).
  { by apply (typed_columns_lowered (columns df)). }
  assert (Hfc : "Category" ∈ columns (fill_category typed) ∧
                "category" ∉ columns (fill_category typed)).
  { unfold fill_category. apply has_col_true in Hin as Hhas. rewrite Hhas. simpl.
    split; [by apply elem_of_rename_new | by apply not_elem_of_rename_old]. }
  revert Hfc Hknown'. generalize (fill_category typed) as df6.
  intros df6 [Hyes6 Hno6] Hknown'. unfold fill_description.
  destruct (has_col "description" df6); simpl; [done |].
  assert ("Description" ∉ columns df6) as Hno_desc.
  { intros H. apply Hknown' in H as [H|H]; revert H; not_a_column. }
  rewrite columns_add_scalar by done. split.
  - apply elem_of_app. by left.
  - intros H. apply elem_of_app in H as [H|H]; [done | revert H; not_a_column].
Qed.

(** X7. Without a description column in the upload, every row of the
    normalized table has the empty Description. *)
Lemma normalize_description_default df df' :
  rectangular df → normalize df = Ok (Some df') →
  "description" ∉ map lower (columns df) →
  ∀ row, row ∈ rows df' → field df' "Description" row = Str "".
Proof.
  intros Hrect Hnorm Hno.
  destruct (normalize_stages _ _ Hrect Hnorm) as (typed & -> & Hr & Ht & Hc).
  pose proof (typed_columns_known (columns df) _ Hc) as Hknown.
  pose proof (fill_category_columns _ _ Hknown) as Hknown'.
  destruct (fill_category_sign_typed _ _ Hknown Hr Ht) as [_ Hr'].
  revert Hr' Hknown'. generalize (fill_category typed) as df6.
  intros df6 Hr' Hknown'.
  assert (Hno_desc : "description" ∉ columns df6).
  { intros H. apply Hknown' in H as [H|H]; [revert H; not_a_column | done]. }
  assert (Hno_Desc : "Description" ∉ columns df6).
  { intros H. apply Hknown' in H as [H|H]; revert H; not_a_column. }
  unfold fill_description. apply has_col_false in Hno_desc as ->. simpl.
  rewrite setitem_scalar_as_map. intros row Hin.
  apply rows_add_column in Hin as (r0 & Hr0 & ->); [|done].
  by rewrite field_new_column.
Qed.

(** A description column of the upload stays under its lowered name: the
    normalized table then has no [Description] column. *)
Lemma normalize_description_kept_lowered df df' :
  rectangular df → normalize df = Ok (Some df') →
  "description" ∈ map lower (columns df) →
  "description" ∈ columns df' ∧ "Description" ∉ columns df'.
Proof.
  intros Hrect Hnorm Hyes.
  destruct (normalize_stages _ _ Hrect Hnorm) as (typed & -> & Hr & Ht & Hc).
  pose proof (typed_columns_known (columns df) _ Hc) as Hknown.
  pose proof (fill_category_columns _ _ Hknown) as Hknown'.
  assert (Hin : "description" ∈ columns typed).
  { by apply (typed_columns_lowered (columns df)). }
  assert (Hin6 : "description" ∈ columns (fill_category typed)).
  { unfold fill_category. destruct (has_col "category" typed) eqn:Hcat; simpl.
    - by apply elem_of_rename_other.
    - apply has_col_false in Hcat.
      assert ("Category" ∉ columns typed) as Hno.
      { intros H. apply Hknown in H as [H|H]; revert H; not_a_column. }
      rewrite columns_add_scalar by done. apply elem_of_app. by left. }
  revert Hin6 Hknown'. generalize (fill_category typed) as df6.
  intros df6 Hin6 Hknown'. unfold fill_description.
  apply has_col_true in Hin6 as Hhas. rewrite Hhas. simpl. split; [done |].
  intros H. apply Hknown' in H as [H|H]; revert H; not_a_column.
Qed.

(** ** The reporter *)


(** *** Grouping *)

Lemma date_eqb_eq a b : date_eqb a b = true ↔ a = b.
Proof.
  unfold date_eqb. rewrite !andb_true_iff, !Nat.eqb_eq.
  destruct a, b; simpl. split; [by intros [[-> ->] ->] | by intros [= -> -> ->]].
Qed.

Lemma pow10_pos (n : nat) : (0 < 10 ^ Z.of_nat n)%Z.
Proof. apply Z.pow_pos_nonneg; lia. Qed.

Lemma num_eqb_euclid x y z :
  num_eqb x z = true → num_eqb y z = true → num_eqb x y = true.
Proof.
  unfold num_eqb. rewrite !Z.eqb_eq. intros H1 H2.
  pose proof (pow10_pos (scale z)) as Hz.
  apply (Z.mul_reg_r _ _ (10 ^ Z.of_nat (scale z))); [lia |].
  replace (mant x * 10 ^ Z.of_nat (scale y) * 10 ^ Z.of_nat (scale z))%Z
    with (mant x * 10 ^ Z.of_nat (scale z) * 10 ^ Z.of_nat (scale y))%Z by ring.
  replace (mant y * 10 ^ Z.of_nat (scale x) * 10 ^ Z.of_nat (scale z))%Z
    with (mant y * 10 ^ Z.of_nat (scale z) * 10 ^ Z.of_nat (scale x))%Z by ring.
  rewrite H1, H2. ring.
Qed.

Lemma cell_eqb_refl c : cell_eqb c c = true.
Proof.
  destruct c as [|s|x|d]; simpl; [done | by apply bool_decide_eq_true_2 | |].
  - apply Z.eqb_refl.
  - by apply date_eqb_eq.
Qed.

Lemma cell_eqb_sym a b : cell_eqb a b = true → cell_eqb b a = true.
Proof.
  destruct a as [|s|x|d], b as [|t|y|e]; simpl; try done.
  - intros H. apply bool_decide_eq_true in H as ->. by apply bool_decide_eq_true_2.
  - unfold num_eqb. rewrite !Z.eqb_eq. by intros ->.
  - rewrite !date_eqb_eq. by intros ->.
Qed.

Lemma cell_eqb_euclid a b c :
  cell_eqb a c = true → cell_eqb b c = true → cell_eqb a b = true.
Proof.
  destruct a as [|s|x|d], b as [|t|y|e], c as [|u|z|f]; simpl; try done.
  - intros H1 H2. apply bool_decide_eq_true in H1 as ->.
    apply bool_decide_eq_true in H2 as ->. by apply bool_decide_eq_true_2.
  - apply num_eqb_euclid.
  - rewrite !date_eqb_eq. by intros -> ->.
Qed.

Lemma key_eqb_cons x a y b : key_eqb (x :: a) (y :: b) = cell_eqb x y && key_eqb a b.
Proof.
  unfold key_eqb. simpl. by destruct (length a =? length b), (cell_eqb x y).
Qed.

Lemma key_eqb_refl k : key_eqb k k = true.
Proof.
  induction k as [|c k IH]; [done |]. by rewrite key_eqb_cons, cell_eqb_refl, IH.
Qed.

Lemma key_eqb_sym a b : key_eqb a b = true → key_eqb b a = true.
Proof.
  revert b. induction a as [|x a IH]; intros [|y b]; try done.
  rewrite !key_eqb_cons, !andb_true_iff. intros [H1 H2].
  split; [by apply cell_eqb_sym | by apply IH].
Qed.

Lemma key_eqb_euclid a b c :
  key_eqb a c = true → key_eqb b c = true → key_eqb a b = true.
Proof.
  revert b c. induction a as [|x a IH]; intros [|y b] [|z c]; try done.
  rewrite !key_eqb_cons, !andb_true_iff. intros [H1 H2] [H3 H4].
  split; [by eapply cell_eqb_euclid | by eapply IH].
Qed.

(** Where [add_to_group] puts a value: in the first group with the key, or
    in a new group after all the others. *)
Lemma add_to_group_cases key v groups :
  (∃ g1 k vs g2,
     groups = g1 ++ (k, vs) :: g2 ∧
     Forall (λ g, key_eqb g.1 key = false) g1 ∧ key_eqb k key = true ∧
     add_to_group key v groups = g1 ++ (k, vs ++ [v]) :: g2) ∨
  (Forall (λ g, key_eqb g.1 key = false) groups ∧
   add_to_group key v groups = groups ++ [(key, [v])]).
Proof.
  induction groups as [|[k vs] gs IH]; simpl.
  - right. by split.
  - destruct (key_eqb k key) eqn:Hk.
    + left. by exists [], k, vs, gs.
    + destruct IH as [(g1 & k' & vs' & g2 & -> & Hall & Hk' & ->)|[Hall ->]].
      * left. exists ((k, vs) :: g1), k', vs', g2.
        split; [done |]. split; [by constructor |]. by split.
      * right. split; [by constructor | done].
Qed.

Lemma distinct_keys_snoc ks key :
  distinct_keys ks → Forall (λ k, key_eqb k key = false) ks →
  distinct_keys (ks ++ [key]).
Proof.
  intros [Hnd Hinj] Hall. rewrite Forall_forall in Hall. split.
  - apply NoDup_app. split; [done |]. split; [|apply NoDup_singleton].
    intros k Hk Hin. apply list_elem_of_singleton in Hin as ->.
    specialize (Hall key Hk). by rewrite key_eqb_refl in Hall.
  - intros k k' Hk Hk' Heq.
    apply elem_of_app in Hk as [Hk|Hk], Hk' as [Hk'|Hk'];
      try apply list_elem_of_singleton in Hk as ->;
      try apply list_elem_of_singleton in Hk' as ->.
    + by apply Hinj.
    + by rewrite (Hall k Hk) in Heq.
    + apply key_eqb_sym in Heq. by rewrite (Hall k' Hk') in Heq.
    + done.
Qed.

Lemma filter_none {A} (P : A → Prop) `{∀ x, Decision (P x)} (l : list A) :
  (∀ x, x ∈ l → ¬ P x) → filter P l = [].
Proof.
  induction l as [|x l IH]; [done |]. intros Hall.
  rewrite filter_cons_False by (apply Hall; left).
  apply IH. intros y Hy. apply Hall. by right.
Qed.

(** A row without a key changes no group. *)
Lemma groups_of_skip df keys value pre row groups :
  groups_of df keys value pre groups →
  existsb isnull (row_key df keys row) = true →
  groups_of df keys value (pre ++ [row]) groups.
Proof.
  intros (Hgroups & Hcover & Hdist) Hnull.
  assert (Hno : ∀ k, has_key df keys k row = false).
  { intros k. unfold has_key. by rewrite Hnull. }
  split; [|split; [|done]].
  - intros k vs Hin. destruct (Hgroups k vs Hin) as [-> (r & Hr & Hkey & ->)].
    split.
    + rewrite filter_app, filter_cons_False, filter_nil, app_nil_r; [done |].
      by rewrite Hno.
    + exists r. split; [apply elem_of_app; by left | done].
  - intros r Hr Hfull. apply elem_of_app in Hr as [Hr|Hr]; [by apply Hcover |].
    apply list_elem_of_singleton in Hr as ->. congruence.
Qed.

(** A row with a key joins the group of its key, or starts one. *)
Lemma groups_of_add df keys value pre row groups :
  groups_of df keys value pre groups →
  existsb isnull (row_key df keys row) = false →
  groups_of df keys value (pre ++ [row])
    (add_to_group (row_key df keys row) (field df value row) groups).
Proof.
  intros (Hgroups & Hcover & Hdist) Hfull.
  set (key := row_key df keys row). set (v := field df value row).
  assert (Hkey : ∀ k, has_key df keys k row = key_eqb k key).
  { intros k. unfold has_key. by rewrite Hfull. }
  assert (Hold : ∀ k vs, (k, vs) ∈ groups → key_eqb k key = false →
            vs = map (field df value)
                   (filter (λ r, has_key df keys k r = true) (pre ++ [row])) ∧
            ∃ r, r ∈ pre ++ [row] ∧ has_key df keys k r = true ∧ k = row_key df keys r).
  { intros k vs Hin Hne. destruct (Hgroups k vs Hin) as [-> (r & Hr & Hk & ->)].
    split.
    - rewrite filter_app, filter_cons_False, filter_nil, app_nil_r; [done |].
      by rewrite Hkey, Hne.
    - exists r. split; [apply elem_of_app; by left | done]. }
  destruct (add_to_group_cases key v groups)
    as [(g1 & k & vs & g2 & -> & Hall & Hk & ->)|[Hall ->]].
  - rewrite Forall_forall in Hall.
    assert (Hlater : ∀ k' vs', (k', vs') ∈ g2 → key_eqb k' key = false).
    { intros k' vs' Hin. destruct (key_eqb k' key) eqn:Hk'; [exfalso | done].
      pose proof (key_eqb_euclid _ _ _ Hk Hk') as Hsame.
      destruct Hdist as [Hnd Hinj]. rewrite fmap_app, fmap_cons in Hnd, Hinj.
      simpl in Hnd, Hinj.
      assert (Hin' : k' ∈ g2.*1).
      { apply list_elem_of_fmap. by exists (k', vs'). }
      assert (k = k') as <-.
      { apply Hinj; [apply elem_of_app; right; left | | done].
        apply elem_of_app. right. by right. }
      apply NoDup_app in Hnd as (_ & _ & Hnd). by apply NoDup_cons in Hnd as [Hnd _]. }
    split; [|split].
    + intros k' vs' Hin. apply elem_of_app in Hin as [Hin|Hin];
        [|apply elem_of_cons in Hin as [Heq|Hin]].
      * apply Hold; [apply elem_of_app; by left | by apply (Hall (k', vs'))].
      * injection Heq as -> ->.
        destruct (Hgroups k vs) as [-> (r & Hr & Hkr & ->)];
          [apply elem_of_app; right; left |].
        split.
        -- rewrite filter_app, filter_cons_True, filter_nil, map_app; [done |].
           by rewrite Hkey.
        -- exists r. split; [apply elem_of_app; by left | done].
      * apply Hold; [apply elem_of_app; right; by right | by eapply Hlater].
    + intros r Hr Hfr. apply elem_of_app in Hr as [Hr|Hr].
      * destruct (Hcover r Hr Hfr) as (k0 & vs0 & Hin & Heq).
        apply elem_of_app in Hin as [Hin|Hin];
          [|apply elem_of_cons in Hin as [[= -> ->]|Hin]].
        -- exists k0, vs0. split; [apply elem_of_app; by left | done].
        -- exists k, (vs ++ [v]). split; [apply elem_of_app; right; left | done].
        -- exists k0, vs0. split; [apply elem_of_app; right; by right | done].
      * apply list_elem_of_singleton in Hr as ->.
        exists k, (vs ++ [v]). split; [apply elem_of_app; right; left | done].
    + rewrite fmap_app, fmap_cons in *. done.
  - split; [|split].
    + intros k' vs' Hin. apply elem_of_app in Hin as [Hin|Hin].
      * apply Hold; [done |]. rewrite Forall_forall in Hall. by apply (Hall (k', vs')).
      * apply list_elem_of_singleton in Hin as [= -> ->].
        split.
        -- rewrite filter_app, filter_cons_True, filter_nil;
             [|by rewrite Hkey, key_eqb_refl].
           rewrite (filter_none _ pre); [done |].
           intros r Hr Hkr. unfold has_key in Hkr.
           apply andb_true_iff in Hkr as [Hfr Hkr]. apply negb_true_iff in Hfr.
           destruct (Hcover r Hr Hfr) as (k0 & vs0 & Hin & Heq).
           pose proof (key_eqb_euclid _ _ _ Heq Hkr) as Hsame.
           rewrite Forall_forall in Hall. pose proof (Hall (k0, vs0) Hin) as Hno.
           simpl in Hno. congruence.
        -- exists row. split; [apply elem_of_app; right; left |].
           split; [by rewrite Hkey, key_eqb_refl | done].
    + intros r Hr Hfr. apply elem_of_app in Hr as [Hr|Hr].
      * destruct (Hcover r Hr Hfr) as (k0 & vs0 & Hin & Heq).
        exists k0, vs0. split; [apply elem_of_app; by left | done].
      * apply list_elem_of_singleton in Hr as ->.
        exists key, [v]. split; [apply elem_of_app; right; left | apply key_eqb_refl].
    + rewrite fmap_app. simpl. apply distinct_keys_snoc; [done |].
      by apply Forall_fmap.
Qed.

Lemma group_rows_groups df keys value rs pre groups :
  groups_of df keys value pre groups →
  groups_of df keys value (pre ++ rs) (group_rows df keys value rs groups).
Proof.
  revert pre groups. induction rs as [|row rs IH]; intros pre groups H; simpl.
  - by rewrite app_nil_r.
  - rewrite cons_middle, app_assoc.
    destruct (existsb isnull (row_key df keys row)) eqn:Hnull; apply IH.
    + by apply groups_of_skip.
    + by apply groups_of_add.
Qed.

Lemma insert_group_perm g sorted : insert_group g sorted ≡ₚ g :: sorted.
Proof.
  induction sorted as [|h rest IH]; simpl; [done |].
  destruct (key_before g.1 h.1); [done |]. rewrite IH. apply Permutation_swap.
Qed.

Lemma sort_groups_perm groups : sort_groups groups ≡ₚ groups.
Proof.
  induction groups as [|g groups IH]; simpl; [done |].
  rewrite insert_group_perm. by rewrite IH.
Qed.

Lemma groups_of_perm df keys value rs groups groups' :
  groups ≡ₚ groups' → groups_of df keys value rs groups →
  groups_of df keys value rs groups'.
Proof.
  intros Hperm (Hgroups & Hcover & Hnd & Hinj). split; [|split; [|split]].
  - intros k vs Hin. apply Hgroups. by rewrite Hperm.
  - intros r Hr Hfr. destruct (Hcover r Hr Hfr) as (k & vs & Hin & Heq).
    exists k, vs. split; [by rewrite <- Hperm | done].
  - by rewrite <- Hperm.
  - intros k k' Hk Hk'. rewrite <- Hperm in Hk, Hk'. by apply Hinj.
Qed.

Lemma count_col_elem_of n df : 0 < count_col n df ↔ n ∈ columns df.
Proof.
  unfold count_col. split.
  - intros H. destruct (filter (λ c, c = n) (columns df)) as [|c l] eqn:Hf;
      [simpl in H; lia |].
    assert (c ∈ filter (λ c, c = n) (columns df)) as Hc by (rewrite Hf; left).
    by apply list_elem_of_filter in Hc as [-> Hc].
  - intros H. assert (n ∈ filter (λ c, c = n) (columns df)) as Hn
      by by apply list_elem_of_filter.
    destruct (filter (λ c, c = n) (columns df)); [by apply elem_of_nil in Hn |].
    simpl. lia.
Qed.

Lemma first_missing_None names df :
  Forall (λ n, count_col n df = 1) names → first_missing names df = None.
Proof.
  induction 1 as [|n names Hn _ IH]; simpl; [done |].
  assert (has_col n df = true) as ->; [|done].
  apply has_col_true, count_col_elem_of. lia.
Qed.

Lemma first_repeated_None names df :
  Forall (λ n, count_col n df ≤ 1) names → first_repeated names df = None.
Proof.
  induction 1 as [|n names Hn _ IH]; simpl; [done |].
  assert ((1 <? count_col n df) = false) as ->; [|done].
  apply Nat.ltb_ge. lia.
Qed.

(** What [groupby_sum] returns for labels that are columns, each once: the
    groups of the rows, each as its key followed by the sum of its values. *)
Lemma groupby_sum_groups keys value df :
  Forall (λ n, count_col n df = 1) (keys ++ [value]) →
  ∃ groups,
    groupby_sum keys value df
    = Ok {| columns := keys ++ [value];
            rows := map (λ g, g.1 ++ [column_sum g.2]) groups |} ∧
    groups_of df keys value (rows df) groups.
Proof.
  intros Hcols. unfold groupby_sum.
  rewrite first_missing_None by done.
  rewrite first_repeated_None by (eapply Forall_impl; [done | simpl; lia]).
  eexists. split; [done |].
  eapply groups_of_perm; [symmetry; apply sort_groups_perm |].
  apply (group_rows_groups df keys value (rows df) [] []).
  split; [|split].
  - intros k vs H. by apply elem_of_nil in H.
  - intros r H. by apply elem_of_nil in H.
  - split; [constructor |]. intros k k' H. by apply elem_of_nil in H.
Qed.



(** *** The PDF export and its image files *)

Lemma bind_Ok {A B} (m : M A) (k : A → M B) w b w' :
  bind m k w = (Ok b, w') → ∃ a w1, m w = (Ok a, w1) ∧ k a w1 = (Ok b, w').
Proof.
  unfold bind. destruct (m w) as [[a|e] w1]; [|done]. intros H. by exists a, w1.
Qed.

Lemma image_paths_app story more :
  image_paths (story ++ more) = image_paths story ++ image_paths more.
Proof.
  induction story as [|[text|? ?|path ? ?] story IH]; simpl; try done.
  by rewrite IH.
Qed.

Lemma mk_paragraph_Ok text w p w' :
  mk_paragraph text w = (Ok p, w') → p = Paragraph text ∧ w' = w.
Proof.
  unfold mk_paragraph, ret, lift. destruct (paragraph_ok ext text); [|done].
  by intros [= <- <-].
Qed.

(** The loop over the rows adds paragraphs and spacers, and touches no file. *)
Lemma report_rows_Ok df rs elements w result w' :
  report_rows df rs elements w = (Ok result, w') →
  w' = w ∧ image_paths result = image_paths elements.
Proof.
  revert elements. induction rs as [|row rs IH]; simpl; intros elements H.
  - by injection H as <- <-.
  - apply bind_Ok in H as (line & w1 & Hline & H).
    apply bind_Ok in H as (p & w2 & Hp & H).
    unfold lift in Hline. injection Hline as _ <-.
    apply mk_paragraph_Ok in Hp as [-> ->].
    apply IH in H as [-> ->]. split; [done |].
    rewrite image_paths_app. simpl. by rewrite app_nil_r.
Qed.

Lemma plot_summary_fs df key_suffix w : fs (plot_summary df key_suffix w).2 = fs w.
Proof.
  unfold plot_summary, bind, emit, lift, ret. simpl.
  destruct (df_empty df); [done |].
  destruct (groupby_sum ["Date"; "Type"] "Amount" df); simpl; [|done].
  destruct (has_col "Category" df); simpl;
    [destruct (some_category df) as [[]|]; simpl |]; try done.
  by destruct (groupby_sum ["Category"] "Amount" df).
Qed.

Lemma write_image_Ok fig path w w' :
  write_image fig path w = (Ok tt, w') → fs w' = <[path := Binary]> (fs w).
Proof.
  unfold write_image, write_file, lift. destruct (write_image_ok ext fig path); [|done].
  by intros [= <-].
Qed.

Lemma doc_build_Ok elements w w' : doc_build elements w = (Ok tt, w') → w' = w.
Proof.
  unfold doc_build, ret, lift. destruct (build_ok ext elements); [|done].
  by intros [= <-].
Qed.

Lemma remove_if_exists_fs img_path w :
  fs (remove_if_exists img_path w).2 =
  match img_path with Some p => delete p (fs w) | None => fs w end.
Proof.
  destruct img_path as [p|]; [|done].
  unfold remove_if_exists, bind, path_exists, os_remove, ret. simpl.
  destruct (fs w !! p) as [f|] eqn:Hp; simpl.
  - by rewrite Hp.
  - by rewrite delete_id.
Qed.

Lemma remove_if_exists_Ok img_path w : (remove_if_exists img_path w).1 = Ok tt.
Proof.
  destruct img_path as [p|]; [|done].
  unfold remove_if_exists, bind, path_exists, os_remove, ret. simpl.
  destruct (fs w !! p) as [f|] eqn:Hp; simpl; [by rewrite Hp | done].
Qed.

Lemma lookup_foldr_delete (m : gmap string file) (paths : list string) (p : string) :
  p ∈ paths → foldr delete m paths !! p = None.
Proof.
  induction paths as [|q paths IH]; simpl; intros Hp.
  - by apply elem_of_nil in Hp.
  - destruct (decide (q = p)) as [->|Hne]; [by rewrite lookup_delete_eq |].
    rewrite lookup_delete_ne by done. apply IH.
    apply elem_of_cons in Hp as [->|Hp]; done.
Qed.

(** C8, as amended. When the PDF export returns, every image file it wrote
    - the files the story embeds - is deleted again, and no other file has
    changed. *)
Theorem pdf_export_removes_images_on_return (data : DataFrame) (w w' : world)
    (pdf : download) :
  get_pdf_download data w = (Ok pdf, w') →
  fs w' = foldr delete (fs w) (image_paths (story_of pdf)) ∧
  ∀ p, p ∈ image_paths (story_of pdf) → fs w' !! p = None.
Proof.
  intros H. unfold get_pdf_download in H.
  apply bind_Ok in H as (title & w1 & Htitle & H).
  apply mk_paragraph_Ok in Htitle as [-> ->].
  apply bind_Ok in H as (elements & w2 & Hrows & H).
  apply report_rows_Ok in Hrows as [-> Himgs]. simpl in Himgs.
  apply bind_Ok in H as (figs & w3 & Hfigs & H).
  pose proof (plot_summary_fs data "pdf" w) as Hfs3. rewrite Hfigs in Hfs3.
  simpl in Hfs3.
  apply bind_Ok in H as (r1 & w4 & H1 & H).
  apply bind_Ok in H as (r2 & w5 & H2 & H).
  apply bind_Ok in H as ([] & w6 & Hbuild & H).
  apply doc_build_Ok in Hbuild as ->.
  apply bind_Ok in H as ([] & w7 & Hrm1 & H).
  apply bind_Ok in H as ([] & w8 & Hrm2 & H).
  unfold ret in H. injection H as <- <-.
  pose proof (remove_if_exists_fs r1.1 w5) as Hfs7. rewrite Hrm1 in Hfs7.
  pose proof (remove_if_exists_fs r2.1 w7) as Hfs8. rewrite Hrm2 in Hfs8.
  simpl in Hfs7, Hfs8. simpl.
  assert (Hr1 : (r1 = (None, elements) ∧ fs w4 = fs w) ∨
                (r1 = (Some "trend_plot.png",
                       elements ++ [Spacer 1 12; Image "trend_plot.png" 480 250]) ∧
                 fs w4 = <["trend_plot.png" := Binary]> (fs w))).
  { destruct figs.1 as [fig1|].
    - right. apply bind_Ok in H1 as ([] & w' & Hw & H1).
      apply write_image_Ok in Hw. unfold ret in H1. injection H1 as <- <-.
      by rewrite Hw, Hfs3.
    - left. unfold ret in H1. by injection H1 as <- <-. }
  assert (Hr2 : (r2 = (None, r1.2) ∧ fs w5 = fs w4) ∨
                (r2 = (Some "pie_chart.png",
                       r1.2 ++ [Spacer 1 12; Image "pie_chart.png" 400 250]) ∧
                 fs w5 = <["pie_chart.png" := Binary]> (fs w4))).
  { destruct figs.2 as [fig2|].
    - right. apply bind_Ok in H2 as ([] & w' & Hw & H2).
      apply write_image_Ok in Hw. unfold ret in H2. by injection H2 as <- <-.
    - left. unfold ret in H2. by injection H2 as <- <-. }
  assert (Hfs : fs w8 = foldr delete (fs w) (image_paths r2.2)).
  { destruct Hr1 as [[-> Hw4]|[-> Hw4]], Hr2 as [[-> Hw5]|[-> Hw5]];
      simpl in *; rewrite ?image_paths_app, Himgs; simpl;
      rewrite Hfs8, Hfs7, Hw5, Hw4; try done.
    - by rewrite delete_insert_eq.
    - by rewrite delete_insert_eq.
    - rewrite (delete_insert_ne _ "trend_plot.png" "pie_chart.png") by done.
      rewrite delete_insert_eq, delete_insert_eq. apply delete_delete. }
  split; [done |]. intros p Hp. rewrite Hfs. by apply lookup_foldr_delete.
Qed.

(** *** What reaches the page *)

Lemma appends_ret {A} (a : A) : appends (ret a).
Proof. intros w. exists []. by rewrite app_nil_r. Qed.

Lemma appends_lift {A} (r : res A) : appends (lift r).
Proof. intros w. exists []. by rewrite app_nil_r. Qed.

Lemma appends_emit e : appends (emit e).
Proof. intros w. by exists [e]. Qed.

Lemma appends_bind {A B} (m : M A) (k : A → M B) :
  appends m → (∀ a, appends (k a)) → appends (bind m k).
Proof.
  intros Hm Hk w. unfold bind. destruct (Hm w) as [more Hmore].
  destruct (m w) as [[a|e] w1]; simpl in *.
  - destruct (Hk a w1) as [more' Hmore']. exists (more ++ more').
    by rewrite Hmore', Hmore, app_assoc.
  - by exists more.
Qed.

Lemma appends_write_file path f : appends (write_file path f).
Proof. intros w. exists []. by rewrite app_nil_r. Qed.

Lemma appends_path_exists path : appends (path_exists path).
Proof. intros w. exists []. by rewrite app_nil_r. Qed.

Lemma appends_os_remove path : appends (os_remove path).
Proof.
  intros w. exists []. unfold os_remove.
  destruct (fs w !! path); by rewrite app_nil_r.
Qed.

Ltac appends_steps :=
  repeat first
    [ apply appends_ret | apply appends_lift | apply appends_emit
    | apply appends_write_file | apply appends_path_exists | apply appends_os_remove
    | apply appends_bind; [|intros ?]
    | match goal with
      | |- appends (if ?b then _ else _) => destruct b
      | |- appends (match ?x with _ => _ end) => destruct x
      end ].

Lemma appends_plot_summary df key_suffix : appends (plot_summary df key_suffix).
Proof. unfold plot_summary. appends_steps. Qed.

Lemma appends_report_rows df rs elements : appends (report_rows df rs elements).
Proof.
  revert elements. induction rs as [|row rs IH]; intros elements; simpl.
  - apply appends_ret.
  - unfold mk_paragraph. appends_steps. apply IH.
Qed.

Lemma appends_get_pdf_download data : appends (get_pdf_download data).
Proof.
  unfold get_pdf_download, mk_paragraph, write_image, doc_build, remove_if_exists.
  apply appends_bind; [appends_steps |]. intros title.
  apply appends_bind; [apply appends_report_rows |]. intros elements.
  apply appends_bind; [apply appends_plot_summary |]. intros [fig1 fig2]. simpl.
  appends_steps.
Qed.

(** X8. When the normalizer produces a table, the page shows the success
    message and then that table, before anything else of the analysis. *)
Lemma analyze_shows_normalized uploaded df df' w :
  read_csv (Some uploaded) = Ok df → normalize df = Ok (Some df') →
  ∃ more,
    ui (after (analyze_uploaded_file uploaded) w) =
    ui w ++ st_success "✅ File uploaded and processed successfully!"
         :: st_dataframe df' :: more.
Proof.
  intros Hread Hnorm. unfold after, analyze_uploaded_file, try_except.
  unfold bind at 1 2. unfold lift. rewrite Hread, Hnorm.
  unfold bind at 1 2. unfold emit at 1 2. simpl.
  match goal with
  | |- context [bind ?m ?k ?w0] =>
      assert (appends (bind m k)) as Happ; [|
        destruct (Happ w0) as [more Hmore]; destruct (bind m k w0) as [[[]|e] w3] ]
  end.
  { apply appends_bind; [apply appends_plot_summary |]. intros _.
    apply appends_bind; [apply appends_emit |]. intros _.
    apply appends_bind; [apply appends_emit |]. intros _.
    apply appends_bind; [apply appends_emit |]. intros _.
    apply appends_bind; [apply appends_get_pdf_download |]. intros pdf.
    apply appends_emit. }
  - simpl in *. exists more. rewrite Hmore. by rewrite <- !app_assoc.
  - simpl in *. exists (more ++ [st_error ("❌ Error processing file: " ++ exn_text e)%string]).
    rewrite Hmore. by rewrite <- !app_assoc.
Qed.

(** ** Further properties of the store *)

Lemma setitem_map_existing df name i (g : list cell → cell) :
  col_index name (columns df) = Some i →
  setitem df name (map g (rows df))
  = {| columns := columns df; rows := map (λ r, <[i := g r]> r) (rows df) |}.
Proof. intros Hi. unfold setitem. by rewrite Hi, zip_with_map_same. Qed.

(** X2. Every row [load_data] returns has a number as its Amount. *)
Theorem load_data_amounts_are_numbers (w w' : world) (df : DataFrame) :
  load_data w = (Ok df, w') →
  ∀ row, row ∈ rows df → ∃ x, field df "Amount" row = Num x.
Proof.
  rewrite load_data_run. intros [= <- <-] row Hrow.
  destruct (read_store (fs w !! data_file)) as [coerced|e] eqn:Hstore;
    [|by apply elem_of_nil in Hrow].
  apply dropna_rows in Hrow as [Hrow Hfull].
  unfold read_store in Hstore.
  destruct (res_bind (read_csv (fs w !! data_file)) (parse_dates "Date"))
    as [dated|] eqn:Hdated; [|done]. simpl in Hstore.
  assert (Hrect : rectangular dated).
  { destruct (read_csv (fs w !! data_file)) as [raw|] eqn:Hraw; [|done].
    simpl in Hdated. eapply parse_dates_rectangular; [done |].
    by eapply read_csv_rectangular. }
  destruct (getitem dated "Amount") as [amount|] eqn:Hget; [|done].
  apply getitem_Ok in Hget as (i & Hi & ->). simpl in Hstore.
  injection Hstore as <-. unfold to_numeric in *. rewrite map_map in *.
  rewrite setitem_map_existing with (i := i) in * by done. simpl in *.
  apply list_elem_of_fmap in Hrow as (r & -> & Hr).
  unfold rectangular in Hrect. rewrite Forall_forall in Hrect.
  specialize (Hrect r Hr). apply col_index_lt in Hi as Hlt.
  unfold field. simpl. rewrite Hi. rewrite at_col_insert by lia.
  apply to_numeric_cell_not_null. apply Hfull.
  apply list_elem_of_lookup. exists i. by rewrite list_lookup_insert_eq by lia.
Qed.

(** ** Further properties of the normalizer *)

Lemma at_col_insert_ne i j v row : i ≠ j → at_col j (<[i := v]> row) = at_col j row.
Proof. intros H. unfold at_col. by rewrite list_lookup_insert_ne. Qed.

Lemma col_index_distinct (a b : string) cols i j :
  a ≠ b → col_index a cols = Some i → col_index b cols = Some j → i ≠ j.
Proof.
  intros Hab Hi Hj ->. apply col_index_lookup in Hi, Hj. congruence.
Qed.

(** The rows that keep a date and an amount, in order, with both coerced. *)
Lemma surviving_rows (n i j : nat) (keep2 : list cell → Prop)
    `{∀ r, Decision (keep2 r)} (rs : list (list cell)) :
  i < n → j < n → i ≠ j →
  Forall (λ r, length r = n) rs →
  (∀ r, keep2 r ↔ isnull (at_col i r) = false ∧ isnull (at_col j r) = false) →
  filter keep2
    (map (λ r, <[j := to_numeric_cell (at_col j r)]> r)
       (map (λ r, <[i := to_datetime_cell (at_col i r)]> r) rs))
  = map (λ r, <[j := to_numeric_cell (at_col j r)]>
                (<[i := to_datetime_cell (at_col i r)]> r))
      (filter (λ r, isnull (to_datetime_cell (at_col i r)) = false ∧
                    isnull (to_numeric_cell (at_col j r)) = false) rs).
Proof.
  intros Hi Hj Hne Hlen Hkeep.
  induction Hlen as [|r rs Hr _ IH]; [done |]. simpl.
  rewrite !filter_cons, IH.
  assert (Hat_i : at_col i (<[j := to_numeric_cell
                      (at_col j (<[i := to_datetime_cell (at_col i r)]> r))]>
                      (<[i := to_datetime_cell (at_col i r)]> r))
                  = to_datetime_cell (at_col i r)).
  { rewrite at_col_insert_ne by done. apply at_col_insert. lia. }
  assert (Hat_j : at_col j (<[j := to_numeric_cell
                      (at_col j (<[i := to_datetime_cell (at_col i r)]> r))]>
                      (<[i := to_datetime_cell (at_col i r)]> r))
                  = to_numeric_cell (at_col j r)).
  { rewrite at_col_insert by (rewrite length_insert; lia).
    by rewrite at_col_insert_ne. }
  destruct (decide (keep2 _)) as [Hk|Hk].
  - apply Hkeep in Hk. rewrite Hat_i, Hat_j in Hk.
    rewrite decide_True by done. simpl.
    by rewrite (at_col_insert_ne i j) by done.
  - rewrite decide_False; [done |]. intros Hyes. apply Hk, Hkeep.
    by rewrite Hat_i, Hat_j.
Qed.

Lemma fields_add_column df n (g : list cell → cell) name :
  rectangular df → n ∉ columns df → name ∈ columns df →
  map (field (setitem df n (map g (rows df))) name)
    (rows (setitem df n (map g (rows df))))
  = map (field df name) (rows df).
Proof.
  intros Hrect Hnew Hname. rewrite setitem_map_rows.
  apply col_index_None in Hnew as Hnone. rewrite Hnone, map_map.
  apply map_ext_in. intros r Hr. apply field_add_column; try done.
  by apply list_elem_of_In.
Qed.

Lemma fields_rename df (old new name : string) :
  name ≠ old → name ≠ new →
  map (field (rename old new df) name) (rows (rename old new df))
  = map (field df name) (rows df).
Proof.
  intros Ho Hn. simpl. apply map_ext. intros r. unfold field, rename. simpl.
  by rewrite col_index_rename_other.
Qed.

(** Lines 124-130 leave the Date and Amount of every row as they are. *)
Lemma fields_fill (lowered : list string) df name :
  (∀ c, c ∈ columns df → c ∈ ["Date"; "Amount"; "Type"] ∨ c ∈ map lower lowered) →
  rectangular df → name ∈ columns df →
  name ≠ "category" → name ≠ "Category" → name ≠ "Description" →
  map (field (fill_description (fill_category df)) name)
    (rows (fill_description (fill_category df)))
  = map (field df name) (rows df).
Proof.
  intros Hknown Hrect Hname H1 H2 H3.
  pose proof (fill_category_columns _ _ Hknown) as Hknown'.
  assert (Hcat : map (field (fill_category df) name) (rows (fill_category df))
                 = map (field df name) (rows df) ∧
                 rectangular (fill_category df) ∧ name ∈ columns (fill_category df)).
  { unfold fill_category. destruct (has_col "category" df); simpl.
    - split; [by apply fields_rename |].
      split; [by apply rectangular_rename | by apply elem_of_rename_other].
    - assert ("Category" ∉ columns df) as Hno.
      { intros Hc. apply Hknown in Hc as [Hc|Hc]; revert Hc; not_a_column. }
      rewrite setitem_scalar_as_map.
      split; [by apply fields_add_column |].
      split; [by apply rectangular_setitem |].
      rewrite setitem_columns. apply col_index_None in Hno as ->.
      apply elem_of_app. by left. }
  destruct Hcat as (Heq & Hrect' & Hname'). rewrite <- Heq.
  revert Hknown' Hrect' Hname'. generalize (fill_category df) as df6.
  intros df6 Hknown' Hrect' Hname'. unfold fill_description.
  destruct (has_col "description" df6); simpl; [done |].
  assert ("Description" ∉ columns df6) as Hno.
  { intros Hc. apply Hknown' in Hc as [Hc|Hc]; revert Hc; not_a_column. }
  rewrite setitem_scalar_as_map. by apply fields_add_column.
Qed.

(** X3. Row-level coercion failures are dropped silently and nothing else
    is: the Date and Amount columns of the normalized table are the coerced
    dates and amounts of exactly those uploaded rows in which both coercions
    succeed, in the order of the upload. *)
Theorem normalize_keeps_coercible_rows (df df' : DataFrame) (i j : nat) :
  rectangular df →
  col_index "date" (map lower (columns df)) = Some i →
  col_index "amount" (map lower (columns df)) = Some j →
  normalize df = Ok (Some df') →
  let kept := filter (λ r, isnull (to_datetime_cell (at_col i r)) = false ∧
                           isnull (to_numeric_cell (at_col j r)) = false) (rows df) in
  map (field df' "Date") (rows df') = map (λ r, to_datetime_cell (at_col i r)) kept ∧
  map (field df' "Amount") (rows df') = map (λ r, to_numeric_cell (at_col j r)) kept ∧
  length (rows df') = length kept.
Proof.
  intros Hrect Hi0 Hj0 Hnorm kept.
  assert (Hgoal : map (field df' "Date") (rows df')
                  = map (λ r, to_datetime_cell (at_col i r)) kept ∧
                  map (field df' "Amount") (rows df')
                  = map (λ r, to_numeric_cell (at_col j r)) kept).
  2: { destruct Hgoal as [Hd Ha]. split; [done |]. split; [done |].
       apply (f_equal length) in Hd. by rewrite !length_map in Hd. }
  revert Hnorm. unfold normalize.
  set (df0 := {| columns := map lower (columns df); rows := rows df |}).
  assert (Hrect0 : rectangular df0).
  { unfold rectangular in *. simpl. by rewrite length_map. }
  destruct (negb _); [done |].
  destruct (series df0 "date" _) as [date_col|] eqn:Hs1; [|done]. simpl.
  apply series_Ok, getitem_Ok in Hs1 as (i' & Hi & ->).
  assert (i' = i) as -> by (simpl in Hi; congruence).
  unfold to_datetime. rewrite map_map.
  set (df1 := setitem df0 "date" _).
  assert (Hc1 : columns df1 = map lower (columns df)).
  { unfold df1. by rewrite setitem_columns, Hi. }
  assert (Hr1 : rows df1 = map (λ r, <[i := to_datetime_cell (at_col i r)]> r) (rows df)).
  { unfold df1. by rewrite setitem_map_rows, Hi. }
  destruct (series df1 "amount" _) as [amount_col|] eqn:Hs2; [|done]. simpl.
  apply series_Ok, getitem_Ok in Hs2 as (j' & Hj & ->).
  assert (j' = j) as -> by (rewrite Hc1 in Hj; congruence).
  unfold to_numeric. rewrite map_map.
  set (df2 := setitem df1 "amount" _).
  assert (Hrect1 : rectangular df1) by by apply rectangular_setitem.
  assert (Hrect2 : rectangular df2) by by apply rectangular_setitem.
  assert (Hc2 : columns df2 = map lower (columns df)).
  { unfold df2. by rewrite setitem_columns, Hj. }
  assert (Hr2 : rows df2 = map (λ r, <[j := to_numeric_cell (at_col j r)]> r)
                             (map (λ r, <[i := to_datetime_cell (at_col i r)]> r) (rows df))).
  { unfold df2. by rewrite setitem_map_rows, Hj, Hr1. }
  set (df3 := dropna_subset _ df2).
  set (df4 := rename "amount" "Amount" (rename "date" "Date" df3)).
  assert (Hc4 : columns df4 =
    map (λ c, if decide (c = "amount") then "Amount" else c)
      (map (λ c, if decide (c = "date") then "Date" else c) (map lower (columns df)))).
  { unfold df4, df3, rename, dropna_subset. simpl. by rewrite Hc2. }
  assert (Hlt_i : i < length (columns df)).
  { apply col_index_lt in Hi0. by rewrite length_map in Hi0. }
  assert (Hlt_j : j < length (columns df)).
  { apply col_index_lt in Hj0. by rewrite length_map in Hj0. }
  assert (Hne : i ≠ j) by by eapply (col_index_distinct "date" "amount").
  assert (Hr3 : rows df4 =
    map (λ r, <[j := to_numeric_cell (at_col j r)]>
                (<[i := to_datetime_cell (at_col i r)]> r)) kept).
  { unfold df4, df3, rename, dropna_subset. simpl. rewrite Hr2.
    apply (surviving_rows (length (columns df))); try done.
    intros r. simpl. unfold field. rewrite Hc2, Hi0, Hj0.
    rewrite !andb_true_iff, !negb_true_iff.
    split; [by intros (Hdate & Hamount & _) | by intros [Hdate Hamount]]. }
  assert (Hrect4 : rectangular df4).
  { by apply rectangular_rename, rectangular_rename, rectangular_dropna_subset. }
  destruct (getitem df4 "Amount") as [amount|] eqn:Hg; [|done]. simpl.
  apply getitem_Ok in Hg as (k & Hk & ->). rewrite map_map.
  assert (k = j) as ->.
  { rewrite Hc4, col_index_rename_new, col_index_rename_other in Hk by (done || not_a_column).
    congruence. }
  assert (Hdate4 : col_index "Date" (columns df4) = Some i).
  { rewrite Hc4, col_index_rename_other, col_index_rename_new by (done || not_a_column).
    done. }
  set (df5 := setitem df4 "Type" _).
  assert (Hno_type : "Type" ∉ columns df4) by (rewrite Hc4; not_a_column).
  assert (Hc5 : columns df5 = columns df4 ++ ["Type"]).
  { unfold df5. rewrite setitem_columns.
    apply col_index_None in Hno_type. by rewrite Hno_type. }
  assert (Hrect5 : rectangular df5) by by apply (rectangular_setitem df4).
  assert (Hknown : ∀ c, c ∈ columns df5 →
            c ∈ ["Date"; "Amount"; "Type"] ∨ c ∈ map lower (columns df)).
  { apply typed_columns_known. by rewrite Hc5, Hc4. }
  assert (Hfield4 : ∀ name idx, col_index name (columns df4) = Some idx →
            map (field df5 name) (rows df5) = map (at_col idx) (rows df4)).
  { intros name idx Hidx.
    assert (name ∈ columns df4) as Hin.
    { apply col_index_lookup in Hidx. by eapply list_elem_of_lookup_2. }
    unfold df5. rewrite fields_add_column by done.
    apply map_ext. intros r. unfold field. by rewrite Hidx. }
  intros [= <-].
  rewrite !(fields_fill (columns df)); try done.
  - rewrite (Hfield4 "Date" i), (Hfield4 "Amount" j), Hr3, !map_map by done.
    split; apply map_ext_in; intros r Hr.
    + apply list_elem_of_In, list_elem_of_filter in Hr as [_ Hr].
      unfold rectangular in Hrect. rewrite Forall_forall in Hrect.
      specialize (Hrect r Hr).
      rewrite at_col_insert_ne by done. apply at_col_insert. lia.
    + apply list_elem_of_In, list_elem_of_filter in Hr as [_ Hr].
      unfold rectangular in Hrect. rewrite Forall_forall in Hrect.
      specialize (Hrect r Hr).
      apply at_col_insert. rewrite length_insert. lia.
  - rewrite Hc5. apply elem_of_app. left.
    apply col_index_lookup in Hk. by eapply list_elem_of_lookup_2.
  - rewrite Hc5. apply elem_of_app. left.
    apply col_index_lookup in Hdate4. by eapply list_elem_of_lookup_2.
Qed.

(** ** Which files the script touches *)

Lemma touches_ret {A} paths (a : A) : touches_only paths (ret a).
Proof. by intros w p _. Qed.

Lemma touches_lift {A} paths (r : res A) : touches_only paths (lift r).
Proof. by intros w p _. Qed.

Lemma touches_emit paths e : touches_only paths (emit e).
Proof. by intros w p _. Qed.

Lemma touches_path_exists paths path : touches_only paths (path_exists path).
Proof. by intros w p _. Qed.

Lemma touches_open_read paths path : touches_only paths (open_read path).
Proof. by intros w p _. Qed.

Lemma touches_write_file paths path f :
  path ∈ paths → touches_only paths (write_file path f).
Proof.
  intros Hin w p Hp. unfold write_file. simpl.
  apply lookup_insert_ne. by intros ->.
Qed.

Lemma touches_os_remove paths path :
  path ∈ paths → touches_only paths (os_remove path).
Proof.
  intros Hin w p Hp. unfold os_remove. destruct (fs w !! path); simpl; [|done].
  apply lookup_delete_ne. by intros ->.
Qed.

Lemma touches_bind {A B} paths (m : M A) (k : A → M B) :
  touches_only paths m → (∀ a, touches_only paths (k a)) →
  touches_only paths (bind m k).
Proof.
  intros Hm Hk w p Hp. unfold bind. specialize (Hm w p Hp).
  destruct (m w) as [[a|e] w1]; simpl in *; [|done].
  by rewrite (Hk a w1 p Hp).
Qed.

Lemma touches_try_except {A} paths (body : M A) (handler : exn → M A) :
  touches_only paths body → (∀ e, touches_only paths (handler e)) →
  touches_only paths (try_except body handler).
Proof.
  intros Hm Hk w p Hp. unfold try_except. specialize (Hm w p Hp).
  destruct (body w) as [[a|e] w1]; simpl in *; [done |].
  by rewrite (Hk e w1 p Hp).
Qed.

Ltac touches_steps :=
  repeat first
    [ apply touches_ret | apply touches_lift | apply touches_emit
    | apply touches_path_exists | apply touches_open_read
    | apply touches_write_file; by repeat constructor
    | apply touches_os_remove; by repeat constructor
    | apply touches_bind; [|intros ?]
    | apply touches_try_except; [|intros ?]
    | match goal with
      | |- touches_only _ (if ?b then _ else _) => destruct b
      | |- touches_only _ (match ?x with _ => _ end) => destruct x
      end ].

Lemma touches_load_data paths : touches_only paths load_data.
Proof. unfold load_data. touches_steps. Qed.

Lemma touches_plot_summary paths df key_suffix :
  touches_only paths (plot_summary df key_suffix).
Proof. unfold plot_summary. touches_steps. Qed.

Lemma touches_report_rows paths df rs elements :
  touches_only paths (report_rows df rs elements).
Proof.
  revert elements. induction rs as [|row rs IH]; intros elements; simpl.
  - apply touches_ret.
  - unfold mk_paragraph. touches_steps. apply IH.
Qed.

Lemma touches_bind_post {A B} paths (m : M A) (k : A → M B) (P : A → Prop) :
  touches_only paths m →
  (∀ w a w', m w = (Ok a, w') → P a) →
  (∀ a, P a → touches_only paths (k a)) →
  touches_only paths (bind m k).
Proof.
  intros Hm HP Hk w p Hp. unfold bind. specialize (Hm w p Hp).
  destruct (m w) as [[a|e] w1] eqn:Hrun; simpl in *; [|done].
  by rewrite (Hk a (HP _ _ _ Hrun) w1 p Hp).
Qed.

Lemma touches_remove_if_exists paths img_path :
  (∀ p, img_path = Some p → p ∈ paths) →
  touches_only paths (remove_if_exists img_path).
Proof.
  intros Hin. destruct img_path as [p|]; simpl; [|apply touches_ret].
  apply touches_bind; [apply touches_path_exists |]. intros [];
    [apply touches_os_remove; by apply Hin | apply touches_ret].
Qed.

Lemma touches_write_image paths fig path :
  path ∈ paths → touches_only paths (write_image fig path).
Proof.
  intros Hin. unfold write_image. destruct (write_image_ok ext fig path);
    [by apply touches_write_file | apply touches_lift].
Qed.

Lemma touches_get_pdf_download data :
  touches_only image_files (get_pdf_download data).
Proof.
  assert (Htrend : "trend_plot.png" ∈ image_files) by (by repeat constructor).
  assert (Hpie : "pie_chart.png" ∈ image_files) by (by repeat constructor).
  unfold get_pdf_download.
  apply touches_bind; [unfold mk_paragraph; touches_steps |]. intros title.
  apply touches_bind; [apply touches_report_rows |]. intros elements.
  apply touches_bind; [apply touches_plot_summary |]. intros [fig1 fig2]. simpl.
  apply (touches_bind_post _ _ _ (λ r1, ∀ p, r1.1 = Some p → p ∈ image_files)).
  { destruct fig1; [|apply touches_ret].
    apply touches_bind; [by apply touches_write_image | intros _; apply touches_ret]. }
  { intros w0 r1 w1 Hrun p Hp. destruct fig1.
    - apply bind_Ok in Hrun as ([] & w2 & _ & Hret). unfold ret in Hret.
      injection Hret as <- _. simpl in Hp. by injection Hp as <-.
    - unfold ret in Hrun. injection Hrun as <- _. done. }
  intros r1 Hr1.
  apply (touches_bind_post _ _ _ (λ r2, ∀ p, r2.1 = Some p → p ∈ image_files)).
  { destruct fig2; [|apply touches_ret].
    apply touches_bind; [by apply touches_write_image | intros _; apply touches_ret]. }
  { intros w0 r2 w1 Hrun p Hp. destruct fig2.
    - apply bind_Ok in Hrun as ([] & w2 & _ & Hret). unfold ret in Hret.
      injection Hret as <- _. simpl in Hp. by injection Hp as <-.
    - unfold ret in Hrun. injection Hrun as <- _. done. }
  intros r2 Hr2.
  apply touches_bind; [unfold doc_build; touches_steps |]. intros _.
  apply touches_bind; [by apply touches_remove_if_exists |]. intros _.
  apply touches_bind; [by apply touches_remove_if_exists |]. intros _.
  apply touches_ret.
Qed.

Lemma touches_analyze_uploaded_file uploaded :
  touches_only image_files (analyze_uploaded_file uploaded).
Proof.
  unfold analyze_uploaded_file.
  apply touches_try_except; [|intros e; apply touches_emit].
  apply touches_bind; [apply touches_lift |]. intros df.
  apply touches_bind; [apply touches_lift |]. intros [normalized|];
    [|apply touches_emit].
  apply touches_bind; [apply touches_emit |]. intros _.
  apply touches_bind; [apply touches_emit |]. intros _.
  apply touches_bind; [apply touches_plot_summary |]. intros _.
  apply touches_bind; [apply touches_emit |]. intros _.
  apply touches_bind; [apply touches_emit |]. intros _.
  apply touches_bind; [apply touches_emit |]. intros _.
  apply touches_bind; [apply touches_get_pdf_download |]. intros pdf.
  apply touches_emit.
Qed.

(** X9. Analysing an upload never raises, whatever the file and whatever
    fails on the way, and it changes no file other than the two image files
    of the PDF export; the store in particular is as it was. *)
Theorem analyze_never_raises_nor_writes_store (uploaded : file) (w : world) :
  (analyze_uploaded_file uploaded w).1 = Ok tt ∧
  (∀ p, p ∉ image_files →
        fs (after (analyze_uploaded_file uploaded) w) !! p = fs w !! p) ∧
  fs (after (analyze_uploaded_file uploaded) w) !! data_file = fs w !! data_file.
Proof.
  split.
  { unfold analyze_uploaded_file, try_except.
    match goal with |- context [match ?b w with _ => _ end] =>
      destruct (b w) as [[[]|e] w1] end; done. }
  split.
  - intros p Hp. by apply touches_analyze_uploaded_file.
  - apply touches_analyze_uploaded_file. unfold image_files, data_file.
    intros H. repeat (apply elem_of_cons in H as [H|H]; [discriminate H |]).
    by apply elem_of_nil in H.
Qed.

Lemma touches_app_view_or_upload (m : menu) :
  match m with AddTransaction _ _ _ _ _ _ => False | _ => True end →
  touches_only image_files (app m).
Proof.
  destruct m as [submit d t c s a| |uploaded]; [done | |]; intros _; unfold app.
  - apply touches_bind; [apply touches_emit |]. intros _.
    apply touches_bind; [apply touches_load_data |]. intros data.
    apply touches_bind; [apply touches_emit |]. intros _.
    apply touches_bind; [apply touches_plot_summary |]. intros _.
    destruct (negb (df_empty data)); [|apply touches_ret].
    apply touches_bind; [apply touches_emit |]. intros _.
    apply touches_bind; [apply touches_emit |]. intros _.
    apply touches_bind; [apply touches_emit |]. intros _.
    apply touches_bind; [apply touches_get_pdf_download |]. intros pdf.
    apply touches_emit.
  - apply touches_bind; [apply touches_emit |]. intros _.
    destruct uploaded; [apply touches_analyze_uploaded_file | apply touches_ret].
Qed.

(** X11. Only a submitted transaction changes the store: a run of the
    summary page, of the analysis of an upload, or of the entry form before
    it is submitted leaves the store file as it was, whatever it holds and
    whether or not the page fails. *)
Theorem store_kept_unless_transaction_submitted (m : menu) (w : world) :
  is_Some (fs w !! data_file) →
  match m with AddTransaction true _ _ _ _ _ => False | _ => True end →
  fs (after (script m) w) !! data_file = fs w !! data_file.
Proof.
  intros [f Hf] Hm. unfold after, script.
  assert (Hinit : initialize w = (Ok tt, w)).
  { unfold initialize, bind, path_exists, ret. by rewrite Hf. }
  unfold bind at 1. rewrite Hinit.
  assert (Hnot : data_file ∉ image_files).
  { unfold image_files, data_file.
    intros H. repeat (apply elem_of_cons in H as [H|H]; [discriminate H |]).
    by apply elem_of_nil in H. }
  destruct m as [[] d t c s a| |uploaded]; [done | done | |].
  - by apply (touches_app_view_or_upload ViewSummary I).
  - by apply (touches_app_view_or_upload (TrendAnalysis uploaded) I).
Qed.

(** ** Further properties of the reporter *)

Lemma report_rows_story df rs elements w result w' :
  report_rows df rs elements w = (Ok result, w') →
  ∃ lines,
    Forall2 (λ row line, report_line df row = Ok line) rs lines ∧
    result = elements ++ concat (map (λ l, [Paragraph l; Spacer 1 6]) lines).
Proof.
  revert elements. induction rs as [|row rs IH]; simpl; intros elements H.
  - injection H as <- _. exists []. split; [constructor | by rewrite app_nil_r].
  - apply bind_Ok in H as (line & w1 & Hline & H).
    apply bind_Ok in H as (p & w2 & Hp & H).
    unfold lift in Hline. injection Hline as Hline <-.
    apply mk_paragraph_Ok in Hp as [-> ->].
    apply IH in H as (lines & Hlines & ->). exists (line :: lines).
    split; [by constructor |]. simpl. by rewrite <- app_assoc.
Qed.

Lemma plot_summary_figs df key_suffix w figs w' :
  plot_summary df key_suffix w = (Ok figs, w') →
  figs.1 = None → figs.2 = None.
Proof.
  unfold plot_summary, bind, emit, lift, ret. simpl.
  destruct (df_empty df); [by intros [= <- _] |].
  destruct (groupby_sum ["Date"; "Type"] "Amount" df); simpl; [|done].
  destruct (has_col "Category" df); simpl;
    [destruct (some_category df) as [[]|]; simpl; [| |done] |];
    try by intros [= <- _].
  destruct (groupby_sum ["Category"] "Amount" df); simpl; [|done].
  by intros [= <- _].
Qed.

(** X12. The story of an exported PDF is the title, then one line of text
    for each row of the table, in order, each followed by a spacer, then the
    charts: none, the trend chart, or the trend chart and the category
    chart. *)
Theorem pdf_story_has_one_line_per_row (data : DataFrame) (w w' : world)
    (pdf : download) :
  get_pdf_download data w = (Ok pdf, w') →
  ∃ lines charts,
    Forall2 (λ row line, report_line data row = Ok line) (rows data) lines ∧
    pdf = PdfBytes
            (Paragraph "Finance Report" :: Spacer 1 12 ::
             concat (map (λ l, [Paragraph l; Spacer 1 6]) lines) ++ charts) ∧
    (charts = [] ∨
     charts = [Spacer 1 12; Image "trend_plot.png" 480 250] ∨
     charts = [Spacer 1 12; Image "trend_plot.png" 480 250;
               Spacer 1 12; Image "pie_chart.png" 400 250]).
Proof.
  intros H. unfold get_pdf_download in H.
  apply bind_Ok in H as (title & w1 & Htitle & H).
  apply mk_paragraph_Ok in Htitle as [-> ->].
  apply bind_Ok in H as (elements & w2 & Hrows & H).
  apply report_rows_story in Hrows as (lines & Hlines & ->).
  apply bind_Ok in H as (figs & w3 & Hfigs & H).
  pose proof (plot_summary_figs _ _ _ _ _ Hfigs) as Hnone.
  apply bind_Ok in H as (r1 & w4 & H1 & H).
  apply bind_Ok in H as (r2 & w5 & H2 & H).
  apply bind_Ok in H as ([] & w6 & _ & H).
  apply bind_Ok in H as ([] & w7 & _ & H).
  apply bind_Ok in H as ([] & w8 & _ & H).
  unfold ret in H. injection H as <- _.
  exists lines. destruct figs as [[fig1|] fig2]; simpl in *.
  - apply bind_Ok in H1 as ([] & w9 & _ & H1). unfold ret in H1.
    injection H1 as <- _. simpl in H2. destruct fig2 as [fig2|].
    + apply bind_Ok in H2 as ([] & w10 & _ & H2). unfold ret in H2.
      injection H2 as <- _. simpl.
      exists [Spacer 1 12; Image "trend_plot.png" 480 250;
              Spacer 1 12; Image "pie_chart.png" 400 250].
      split; [done |]. split; [by rewrite <- !app_assoc | by right; right].
    + unfold ret in H2. injection H2 as <- _. simpl.
      exists [Spacer 1 12; Image "trend_plot.png" 480 250].
      split; [done |]. split; [done | by right; left].
  - rewrite Hnone in H2 by done. unfold ret in H1, H2.
    injection H1 as <- _. injection H2 as <- _. simpl. exists [].
    split; [done |]. split; [by rewrite app_nil_r | by left].
Qed.

(** X13. For a table without rows the export writes no image file: given a
    title paragraph and a document that build, the PDF holds the title alone,
    the page gets the heading and the warning of [plot_summary], and the
    files are as they were. *)
Theorem pdf_of_table_without_rows (data : DataFrame) (w : world) :
  rows data = [] →
  paragraph_ok ext "Finance Report" = true →
  build_ok ext [Paragraph "Finance Report"; Spacer 1 12] = true →
  get_pdf_download data w
  = (Ok (PdfBytes [Paragraph "Finance Report"; Spacer 1 12]),
     {| fs := fs w;
        ui := ui w ++ [st_subheader "📈 Income vs Expense Trend";
                       st_warning "No data available to show."] |}).
Proof.
  intros Hrows Hpara Hbuild.
  assert (Hempty : df_empty data = true).
  { unfold df_empty. rewrite Hrows. by destruct (columns data). }
  unfold get_pdf_download, bind, mk_paragraph, plot_summary, bind, emit, ret.
  rewrite Hpara, Hrows. simpl. rewrite Hempty. simpl.
  unfold doc_build, ret. rewrite Hbuild. simpl. by rewrite <- app_assoc.
Qed.

Lemma row_getitem_has_col df name row :
  row_getitem df name row =
  if has_col name df then Ok (field df name row) else Raise (KeyError name).
Proof.
  unfold row_getitem, field. destruct (col_index name (columns df)) as [i|] eqn:Hi.
  - assert (has_col name df = true) as ->; [|done].
    apply has_col_true. apply col_index_lookup in Hi.
    by eapply list_elem_of_lookup_2.
  - apply col_index_None, has_col_false in Hi. by rewrite Hi.
Qed.

(** X14. A table with rows that lacks one of the five canonical columns
    cannot be exported: the export raises a key error for the first column
    missing, in the order of the line it prints, before it shows anything or
    writes any file. *)
Theorem pdf_of_table_missing_a_column (data : DataFrame) (w : world)
    (row : list cell) (rest : list (list cell)) (name : string) :
  rows data = row :: rest →
  paragraph_ok ext "Finance Report" = true →
  first_missing ["Date"; "Type"; "Category"; "Description"; "Amount"] data = Some name →
  get_pdf_download data w = (Raise (KeyError name), w).
Proof.
  intros Hrows Hpara Hmiss.
  assert (Hline : report_line data row = Raise (KeyError name)).
  { unfold report_line. rewrite !row_getitem_has_col. simpl in Hmiss.
    destruct (has_col "Date" data); [|by injection Hmiss as <-]. simpl.
    destruct (has_col "Type" data); [|by injection Hmiss as <-]. simpl.
    destruct (has_col "Category" data); [|by injection Hmiss as <-]. simpl.
    destruct (has_col "Description" data); [|by injection Hmiss as <-]. simpl.
    destruct (has_col "Amount" data); [done | by injection Hmiss as <-]. }
  unfold get_pdf_download, bind at 1, mk_paragraph. rewrite Hpara. unfold ret at 1.
  unfold bind at 1. rewrite Hrows. simpl. unfold bind at 1, lift. by rewrite Hline.
Qed.

(** A table that is not empty and lacks the Date, the Type or the Amount
    column cannot be charted. *)
Lemma plot_summary_missing_column (df : DataFrame) (key_suffix : string)
    (w : world) (name : string) :
  df_empty df = false →
  first_missing ["Date"; "Type"; "Amount"] df = Some name →
  plot_summary df key_suffix w
  = (Raise (KeyError name),
     {| fs := fs w; ui := ui w ++ [st_subheader "📈 Income vs Expense Trend"] |}).
Proof.
  intros Hne Hmiss. unfold plot_summary, bind, emit, lift, groupby_sum. simpl.
  rewrite Hne. simpl in Hmiss. simpl. by rewrite Hmiss.
Qed.

(** X15. The summary page has no handler of its own: when the table loaded
    from the store is not empty and lacks the Date, the Type or the Amount
    column, the page shows its heading, the table and the first subheading,
    and then fails with a key error for the first of these columns missing;
    no file is touched. *)
Theorem summary_page_fails_on_missing_column (w : world) (data : DataFrame)
    (name : string) :
  load_data w = (Ok data, w) →
  df_empty data = false →
  first_missing ["Date"; "Type"; "Amount"] data = Some name →
  app ViewSummary w
  = (Raise (KeyError name),
     {| fs := fs w;
        ui := ui w ++ [st_header "📊 Summary"; st_dataframe data;
                       st_subheader "📈 Income vs Expense Trend"] |}).
Proof.
  intros Hload Hne Hmiss. rewrite load_data_run in Hload. injection Hload as Hdata.
  unfold app. unfold bind at 1. unfold emit at 1.
  unfold bind at 1. rewrite load_data_run. cbn [fs]. rewrite Hdata.
  unfold bind at 1. unfold emit at 1. cbn [fs ui].
  unfold bind at 1.
  rewrite (plot_summary_missing_column data "summary" _ name Hne Hmiss).
  cbn [fs ui]. by rewrite <- !app_assoc.
Qed.

(** *** Grouped sums *)

(** X17. A grouped sum over labels that are each the label of one column
    has the labels as its columns and one row for each key that occurs in the
    table: the key, as its first row spells it, followed by the sum of the
    values of exactly the rows with that key, taken in the order of the rows.
    Rows with a null in their key count for no group, no two rows of the
    result have the same key, and the result never has more rows than the
    table. *)
Theorem groupby_sum_groups_rows_by_key (keys : list string) (value : string)
    (df : DataFrame) :
  Forall (λ n, count_col n df = 1) (keys ++ [value]) →
  ∃ out groups,
    groupby_sum keys value df = Ok out ∧
    columns out = keys ++ [value] ∧
    rows out = map (λ g, g.1 ++ [column_sum g.2]) groups ∧
    groups_of df keys value (rows df) groups ∧
    length (rows out) ≤ length (rows df).
Proof.
  intros Hcols. destruct (groupby_sum_groups keys value df Hcols) as (groups & Hrun & Hgroups).
  eexists _, groups. split; [done |]. split; [done |]. split; [done |].
  split; [done |]. simpl. rewrite length_map.
  destruct Hgroups as (Hfrom & _ & Hnd & _).
  rewrite <- (length_fmap fst groups), <- (length_fmap (row_key df keys) (rows df)).
  apply submseteq_length, NoDup_submseteq; [done |].
  intros k Hk. apply list_elem_of_fmap in Hk as ([k' vs] & -> & Hin).
  destruct (Hfrom k' vs Hin) as (_ & r & Hr & _ & ->).
  apply list_elem_of_fmap. by exists r.
Qed.

End Script.

(** ** Runs on sample data *)

(** C1. The record of the specification's example - 2024-01-01, Income,
    Salary, no description, 1000.00 - is written to a new store and is not in
    the table loaded afterwards: its empty Description comes back as a null
    and [dropna] leaves the row out. *)
Theorem example_record_lost_on_reload :
  let run := (initialize ;;
              save_transaction (mk_date 2024 1 1) "Income" "Salary" "" (mk_num 1000 0) ;;
              load_data iso_date decimal_literal) fresh in
  fs run.2 !! data_file
    = Some (Text [canonical_columns; ["2024-01-01"; "Income"; "Salary"; ""; "1000.0"]]) ∧
  run.1 = Ok {| columns := canonical_columns; rows := [] |}.
Proof. split; vm_compute; reflexivity. Qed.

(** The same through the pages: the form reports the transaction as saved,
    and the summary page that follows shows an empty table. *)
Example saved_transaction_missing_from_summary :
  let added :=
    after (script iso_date decimal_literal all_ok decimal_sum key_leb
             (AddTransaction true (mk_date 2024 1 1) "Income" "Salary" "" (mk_num 1000 0)))
      fresh in
  ui added = [st_header "➕ Add Transaction";
              st_success "Transaction saved successfully!"] ∧
  ui (after (script iso_date decimal_literal all_ok decimal_sum key_leb ViewSummary)
        {| fs := fs added; ui := [] |})
  = [st_header "📊 Summary";
     st_dataframe {| columns := canonical_columns; rows := [] |};
     st_subheader "📈 Income vs Expense Trend";
     st_warning "No data available to show."].
Proof. split; vm_compute; reflexivity. Qed.

(** The same record with a description is loaded back, the amount in another
    spelling of the same decimal. *)
Example described_record_reloaded :
  ((initialize ;;
    save_transaction (mk_date 2024 1 1) "Income" "Salary" "bonus" (mk_num 1000 0) ;;
    load_data iso_date decimal_literal) fresh).1
  = Ok {| columns := canonical_columns;
          rows := [[Date (mk_date 2024 1 1); Str "Income"; Str "Salary"; Str "bonus";
                    Num (mk_num 10000 1)]] |}
  ∧ num_eqb (mk_num 10000 1) (mk_num 1000 0) = true.
Proof. split; vm_compute; reflexivity. Qed.

(** C2. A store of two data lines, one of them with an amount that is not
    a number: total minus invalid is one, and [load_data] returns no row,
    because the line with the sound amount has an empty Description. *)
Theorem sound_amount_row_dropped :
  let w := {| fs := {[ data_file := two_row_store ]}; ui := [] |} in
  length (data_lines two_row_store) = 2 ∧
  length (filter (λ line, amount_fails decimal_literal canonical_columns line = true)
            (data_lines two_row_store)) = 1 ∧
  (load_data iso_date decimal_literal w).1
    = Ok {| columns := canonical_columns; rows := [] |}.
Proof. repeat split; vm_compute; reflexivity. Qed.

(** C6. An upload that has a description column: the normalized table
    keeps it under the lowered name, has no Description column, and the PDF
    export of that table stops at [row['Description']]. *)
Theorem description_column_not_renamed :
  ∃ df df',
    read_csv (Some upload_with_description) = Ok df ∧
    normalize iso_date decimal_literal df = Ok (Some df') ∧
    columns df' = ["Date"; "Amount"; "description"; "Type"; "Category"] ∧
    has_col "Description" df' = false ∧
    (get_pdf_download all_ok decimal_sum key_leb df' fresh).1
      = Raise (KeyError "Description") ∧
    last (ui (after (analyze_uploaded_file iso_date decimal_literal all_ok
                       decimal_sum key_leb
                       upload_with_description) fresh))
      = Some (st_error "❌ Error processing file: 'Description'").
Proof. eexists _, _. repeat split; vm_compute; reflexivity. Qed.

(** Two columns that differ in casing only become one name; pandas then
    raises, and the generic handler reports it. *)
Example same_name_twice_after_lowering :
  ui (after (analyze_uploaded_file iso_date decimal_literal all_ok decimal_sum key_leb
               upload_date_twice)
        fresh)
  = [st_error "❌ Error processing file: cannot assemble with duplicate keys"].
Proof. vm_compute; reflexivity. Qed.

(** C4 as stated does not hold: a missing column is not the only reason
    for which the normalizer refuses an upload.  This upload has a date and
    an amount column, and no table comes of it. *)
Lemma both_columns_there_yet_refused :
  ¬ (∀ (uploaded : file) (df : DataFrame),
       read_csv (Some uploaded) = Ok df →
       (∀ df', normalize iso_date decimal_literal df ≠ Ok (Some df')) →
       "date" ∉ map lower (columns df) ∨ "amount" ∉ map lower (columns df)).
Proof.
  intros H. destruct (H upload_date_twice _ eq_refl) as [Hmiss|Hmiss].
  - intros df'. vm_compute. discriminate.
  - apply Hmiss. apply (bool_decide_unpack _). vm_compute. exact I.
  - apply Hmiss. apply (bool_decide_unpack _). vm_compute. exact I.
Qed.

(** The sums by category and by day and type of a small table, with exact
    sums and the keys in ascending order. *)
Example week_aggregations :
  groupby_sum decimal_sum key_leb ["Category"] "Amount" week
    = Ok {| columns := ["Category"; "Amount"];
            rows := [[Str "Food"; Num (mk_num 2000 2)];
                     [Str "Salary"; Num (mk_num 1000 0)]] |} ∧
  groupby_sum decimal_sum key_leb ["Date"; "Type"] "Amount" week
    = Ok {| columns := ["Date"; "Type"; "Amount"];
            rows := [[Date (mk_date 2024 1 1); Str "Income"; Num (mk_num 1000 0)];
                     [Date (mk_date 2024 1 2); Str "Expense"; Num (mk_num 2000 2)]] |}.
Proof. split; vm_compute; reflexivity. Qed.


Example category_label_twice_run :
  (∃ df, read_csv (Some upload_category_twice) = Ok df ∧
         normalize iso_date decimal_literal df = Ok (Some category_label_twice)) ∧
  count_col "Category" category_label_twice = 2 ∧
  field category_label_twice "Category" [Date (mk_date 2024 2 1); Num (mk_num (-50) 0);
                                         Str "Food"; Str "Lunch"; Str "Expense"; Str ""]
  = Str "Food" ∧
  is_failure (plot_summary decimal_sum key_leb category_label_twice "upload" fresh).1.
Proof.
  split; [eexists; split; [vm_compute; reflexivity | vm_compute; reflexivity] |].
  split; [reflexivity |]. split; [reflexivity | exact I].
Qed.

(** C8 as stated does not hold: when the document builder fails, the export
    ends with both chart images still on disk. *)
Lemma images_left_when_build_fails :
  ¬ (∀ (ext : collaborators) (data : DataFrame) (w : world),
       fs w !! "trend_plot.png" = None → fs w !! "pie_chart.png" = None →
       fs (after (get_pdf_download ext decimal_sum key_leb data) w) !! "trend_plot.png"
         = None ∧
       fs (after (get_pdf_download ext decimal_sum key_leb data) w) !! "pie_chart.png"
         = None).
Proof.
  intros H. destruct (H build_fails one_salary fresh) as [Htrend _]; [done | done |].
  vm_compute in Htrend. discriminate Htrend.
Qed.

Example build_failure_run :
  (get_pdf_download build_fails decimal_sum key_leb one_salary fresh).1
    = Raise (ExternalError "build") ∧
  fs (after (get_pdf_download build_fails decimal_sum key_leb one_salary) fresh) !! "trend_plot.png"
    = Some Binary ∧
  fs (after (get_pdf_download build_fails decimal_sum key_leb one_salary) fresh) !! "pie_chart.png"
    = Some Binary.
Proof. repeat split; vm_compute; reflexivity. Qed.

(** ** The theorems at work on sample data *)

Lemma derived_type_follows_amount_sign_witness :
  ∃ df df',
    read_csv (Some upload_with_type) = Ok df ∧
    normalize iso_date decimal_literal df = Ok (Some df') ∧
    length (rows df') = 2 ∧
    ∀ row, row ∈ rows df' →
      ∃ x, field df' "Amount" row = Num x ∧
           ((0 ≤ mant x)%Z → field df' "Type" row = Str "Income") ∧
           ((mant x < 0)%Z → field df' "Type" row = Str "Expense").
Proof.
  eexists _, _. split; [vm_compute; reflexivity |].
  split; [vm_compute; reflexivity |]. split; [reflexivity |].
  eapply (derived_type_follows_amount_sign iso_date decimal_literal upload_with_type);
    [vm_compute; reflexivity | vm_compute; reflexivity].
Defined.

Lemma schema_error_iff_column_missing_witness :
  analyze_uploaded_file iso_date decimal_literal all_ok decimal_sum key_leb
    upload_without_amount fresh
  = (Ok tt, {| fs := fs fresh; ui := ui fresh ++ [st_error schema_message] |}) ∧
  is_failure
    (normalize iso_date decimal_literal
       {| columns := ["Date"; "DATE"; "Amount"];
          rows := [[Str "2024-02-01"; Str "2024-02-02"; Str "5"]] |}) ∧
  ∃ detail,
    analyze_uploaded_file iso_date decimal_literal all_ok decimal_sum key_leb
      upload_date_twice fresh
    = (Ok tt,
       {| fs := fs fresh;
          ui := ui fresh ++ [st_error ("❌ Error processing file: " ++ detail)%string] |}).
Proof.
  split.
  - destruct (schema_error_iff_column_missing iso_date decimal_literal all_ok
                decimal_sum key_leb upload_without_amount _ fresh eq_refl)
      as (_ & Hrun & _).
    apply Hrun. right. apply (bool_decide_unpack _). vm_compute. exact I.
  - destruct (schema_error_iff_column_missing iso_date decimal_literal all_ok
                decimal_sum key_leb upload_date_twice _ fresh eq_refl)
      as (_ & _ & _ & _ & Hdup).
    apply Hdup.
    + intros [H|H]; apply H; apply (bool_decide_unpack _); vm_compute; exact I.
    + left. vm_compute. lia.
Defined.

Lemma load_data_rows_fully_non_null_witness :
  let w := {| fs := {[ data_file := three_row_store ]}; ui := [] |} in
  ∃ df w',
    load_data iso_date decimal_literal w = (Ok df, w') ∧
    length (rows df) = 1 ∧
    ∀ row c, row ∈ rows df → c ∈ row → isnull c = false.
Proof.
  eexists _, _. split; [vm_compute; reflexivity |]. split; [reflexivity |].
  eapply (load_data_rows_fully_non_null iso_date decimal_literal
            {| fs := {[ data_file := three_row_store ]}; ui := [] |}).
  vm_compute; reflexivity.
Defined.


Lemma pdf_export_removes_images_on_return_witness :
  ∃ pdf w',
    get_pdf_download all_ok decimal_sum key_leb one_salary fresh = (Ok pdf, w') ∧
    image_paths (story_of pdf) = ["trend_plot.png"; "pie_chart.png"] ∧
    fs w' = foldr delete (fs fresh) (image_paths (story_of pdf)) ∧
    ∀ p, p ∈ image_paths (story_of pdf) → fs w' !! p = None.
Proof.
  eexists _, _. split; [vm_compute; reflexivity |]. split; [reflexivity |].
  apply (pdf_export_removes_images_on_return all_ok decimal_sum key_leb one_salary fresh).
  vm_compute; reflexivity.
Defined.

Lemma load_data_amounts_are_numbers_witness :
  ∃ df w',
    load_data iso_date decimal_literal ledger = (Ok df, w') ∧
    length (rows df) = 1 ∧
    ∀ row, row ∈ rows df → ∃ x, field df "Amount" row = Num x.
Proof.
  eexists _, _. split; [vm_compute; reflexivity |]. split; [reflexivity |].
  eapply (load_data_amounts_are_numbers iso_date decimal_literal ledger).
  vm_compute; reflexivity.
Defined.

Lemma normalize_keeps_coercible_rows_witness :
  ∃ df',
    normalize iso_date decimal_literal upload_frame = Ok (Some df') ∧
    let kept :=
      filter (λ r, isnull (to_datetime_cell iso_date (at_col 0 r)) = false ∧
                   isnull (to_numeric_cell decimal_literal (at_col 1 r)) = false)
        (rows upload_frame) in
    map (field df' "Date") (rows df')
      = map (λ r, to_datetime_cell iso_date (at_col 0 r)) kept ∧
    map (field df' "Amount") (rows df')
      = map (λ r, to_numeric_cell decimal_literal (at_col 1 r)) kept ∧
    length (rows df') = length kept.
Proof.
  eexists. split; [vm_compute; reflexivity |].
  apply (normalize_keeps_coercible_rows iso_date decimal_literal upload_frame _ 0 1);
    [repeat constructor | reflexivity | reflexivity | vm_compute; reflexivity].
Defined.

Lemma normalize_category_default_witness :
  ∃ df',
    normalize iso_date decimal_literal upload_frame = Ok (Some df') ∧
    rows df' ≠ [] ∧
    ∀ row, row ∈ rows df' → field df' "Category" row = Str "Uncategorized".
Proof.
  eexists. split; [vm_compute; reflexivity |]. split; [discriminate |].
  apply (normalize_category_default iso_date decimal_literal upload_frame);
    [repeat constructor | vm_compute; reflexivity |
     apply (bool_decide_unpack _); vm_compute; exact I].
Defined.

Lemma normalize_category_renamed_witness :
  ∃ df',
    normalize iso_date decimal_literal upload_with_category = Ok (Some df') ∧
    "Category" ∈ columns df' ∧ "category" ∉ columns df'.
Proof.
  eexists. split; [vm_compute; reflexivity |].
  apply (normalize_category_renamed iso_date decimal_literal upload_with_category);
    [repeat constructor | vm_compute; reflexivity |
     apply (bool_decide_unpack _); vm_compute; exact I].
Defined.

Lemma normalize_description_default_witness :
  ∃ df',
    normalize iso_date decimal_literal upload_frame = Ok (Some df') ∧
    rows df' ≠ [] ∧
    ∀ row, row ∈ rows df' → field df' "Description" row = Str "".
Proof.
  eexists. split; [vm_compute; reflexivity |]. split; [discriminate |].
  apply (normalize_description_default iso_date decimal_literal upload_frame);
    [repeat constructor | vm_compute; reflexivity |
     apply (bool_decide_unpack _); vm_compute; exact I].
Defined.

Lemma analyze_shows_normalized_witness :
  ∃ df df' more,
    read_csv (Some upload_with_type) = Ok df ∧
    normalize iso_date decimal_literal df = Ok (Some df') ∧
    ui (after (analyze_uploaded_file iso_date decimal_literal all_ok decimal_sum key_leb
                 upload_with_type)
          fresh)
    = ui fresh ++ st_success "✅ File uploaded and processed successfully!"
        :: st_dataframe df' :: more.
Proof.
  destruct (analyze_shows_normalized iso_date decimal_literal all_ok decimal_sum key_leb
              upload_with_type _ _ fresh eq_refl eq_refl) as [more Hmore].
  eexists _, _, more. split; [reflexivity |]. split; [reflexivity | exact Hmore].
Defined.

Lemma store_kept_unless_transaction_submitted_witness :
  fs (after (script iso_date decimal_literal all_ok decimal_sum key_leb ViewSummary) ledger)
    !! data_file
  = fs ledger !! data_file.
Proof.
  apply (store_kept_unless_transaction_submitted iso_date decimal_literal all_ok
           decimal_sum key_leb ViewSummary ledger); [|exact I].
  exists (Text (canonical_columns :: ledger_lines)). reflexivity.
Defined.

Lemma pdf_story_has_one_line_per_row_witness :
  ∃ pdf w' lines charts,
    get_pdf_download all_ok decimal_sum key_leb week fresh = (Ok pdf, w') ∧
    length lines = 3 ∧
    Forall2 (λ row line, report_line week row = Ok line) (rows week) lines ∧
    pdf = PdfBytes
            (Paragraph "Finance Report" :: Spacer 1 12 ::
             concat (map (λ l, [Paragraph l; Spacer 1 6]) lines) ++ charts).
Proof.
  let run := eval vm_compute in (get_pdf_download all_ok decimal_sum key_leb week fresh) in
  match run with
  | (Ok ?pdf, ?w') =>
      destruct (pdf_story_has_one_line_per_row all_ok decimal_sum key_leb week fresh w' pdf)
        as (lines & charts & Hlines & Hpdf & _); [vm_compute; reflexivity |]
  end.
  eexists _, _, lines, charts. split; [vm_compute; reflexivity |].
  split; [|split; [exact Hlines | exact Hpdf]].
  apply Forall2_length in Hlines. simpl in Hlines. by symmetry.
Defined.

Lemma pdf_of_table_without_rows_witness :
  get_pdf_download all_ok decimal_sum key_leb (empty_frame canonical_columns) fresh
  = (Ok (PdfBytes [Paragraph "Finance Report"; Spacer 1 12]),
     {| fs := fs fresh;
        ui := ui fresh ++ [st_subheader "📈 Income vs Expense Trend";
                           st_warning "No data available to show."] |}).
Proof.
  apply (pdf_of_table_without_rows all_ok decimal_sum key_leb
           (empty_frame canonical_columns) fresh);
    reflexivity.
Defined.

Lemma pdf_of_table_missing_a_column_witness :
  get_pdf_download all_ok decimal_sum key_leb frame_without_type fresh
  = (Raise (KeyError "Type"), fresh).
Proof.
  eapply (pdf_of_table_missing_a_column all_ok decimal_sum key_leb frame_without_type fresh);
    reflexivity.
Defined.

Lemma groupby_sum_groups_rows_by_key_witness :
  ∃ out groups,
    groupby_sum decimal_sum key_leb ["Date"; "Type"] "Amount" week = Ok out ∧
    columns out = ["Date"; "Type"] ++ ["Amount"] ∧
    rows out = map (λ g, g.1 ++ [decimal_sum g.2]) groups ∧
    groups_of week ["Date"; "Type"] "Amount" (rows week) groups ∧
    length (rows out) ≤ length (rows week).
Proof.
  apply (groupby_sum_groups_rows_by_key decimal_sum key_leb ["Date"; "Type"] "Amount" week).
  repeat constructor.
Defined.

Lemma summary_page_fails_on_missing_column_witness :
  ∃ data,
    load_data iso_date decimal_literal foreign_store = (Ok data, foreign_store) ∧
    length (rows data) = 1 ∧
    app iso_date decimal_literal all_ok decimal_sum key_leb ViewSummary foreign_store
    = (Raise (KeyError "Type"),
       {| fs := fs foreign_store;
          ui := ui foreign_store ++ [st_header "📊 Summary"; st_dataframe data;
                                     st_subheader "📈 Income vs Expense Trend"] |}).
Proof.
  eexists. split; [vm_compute; reflexivity |]. split; [reflexivity |].
  apply (summary_page_fails_on_missing_column iso_date decimal_literal all_ok decimal_sum key_leb
           foreign_store); vm_compute; reflexivity.
Defined.
